(** * Device pool: the handlers of routes/api/devices.js over models/Device.js

    A shallow embedding of the Express router that manages a shared pool of
    devices (registration, removal, check-out, check-in, feedback), with the
    MongoDB collections as finite maps keyed by [_id], and the properties of
    the device life cycle proved about the handlers. *)

From Stdlib Require Import ZArith String.
From stdpp Require Import gmap strings list fin_maps.

(** ** Data model (models/Device.js) *)

(** An ObjectId is carried by its hexadecimal string, the form in which the
    handlers compare it ([toString() === req.user.id]). *)
Abbreviation ObjectId := string.

(** A subdocument of [feedbacks] (Device.js, lines 38-60). [rating] and
    [date] have schema defaults, so they are always present in a stored
    entry; [text] is optional. *)
Module Feedback.
Record t : Type := mk {
  user : ObjectId;
  name : string;
  rating : Z;
  text : option string;
  date : Z
}.
End Feedback.

(** A document of the [device] collection, without its [_id], which is the
    key of the collection. Paths without [required] or [default] may be
    absent ([option]). *)
Record Device : Type := mkDevice {
  model : string;
  os : string;
  manufacturer : string;
  lastCheckedOutBy : option ObjectId;
  lastCheckedOutDate : option Z;
  lastCheckedInDate : option Z;
  registeredBy : ObjectId;
  registeredDate : Z;
  isCheckedOut : bool;
  feedbacks : list Feedback.t
}.

(** Modelled from the spec: models/User.js is not among the sources. A user
    document has the display name that a feedback entry captures at review
    time; the handlers read that [name] and the [id], which is the key
    under which the document was found. *)
Module User.
Record t : Type := mk { name : string }.
End User.

(** The two collections the router works on. *)
Record Db : Type := mkDb {
  devices : gmap string Device;
  users : gmap string User.t
}.

(** What is fixed when the server process starts: the value of [Date.now()]
    at the moment models/Device.js was loaded (the schema's
    [registeredDate] default is that number, line 32), and the time zone of
    the host: [getTimezoneOffset t] is [new Date(t).getTimezoneOffset()],
    the minutes by which UTC is ahead of local time at the instant [t]. *)
Record Server : Type := mkServer {
  loadTime : Z;
  getTimezoneOffset : Z → Z
}.

(** [new Date(t).getHours()]: the local hour of day, 0..23, of the instant
    [t] given in milliseconds since the epoch. *)
Definition getHours (srv : Server) (t : Z) : Z :=
  ((t - getTimezoneOffset srv t * 60000) / 3600000) mod 24.

(** ** Responses *)

(** What a handler sends: a string ([send] or [json] of a string), the
    [errors] array of the validation, the [msg] object of the removal, a
    device, the device list, or a feedback ledger. *)
Inductive Body : Type :=
| Text (msg : string)
| Errors (errors : list string)
| Msg (msg : string)
| DeviceDoc (id : ObjectId) (d : Device)
| DeviceDocs (ds : list (ObjectId * Device))
| FeedbackDocs (fs : list Feedback.t).

Record Response : Type := mkResponse {
  status : Z;
  body : Body
}.

(** [res.json(x)] without [status] answers 200. *)
Definition json (b : Body) : Response := mkResponse 200 b.

(** The [catch] block every handler ends with. *)
Definition ServerError : Response := mkResponse 500 (Text "Server Error").

(** The failures of the handlers, under the names the specification gives
    them. *)
Definition CapacityExceeded : Response :=
  mkResponse 400 (Text "There is no space for new devices.").
Definition ValidationError (errors : list string) : Response :=
  mkResponse 400 (Errors errors).
Definition NotFound : Response := mkResponse 404 (Text "Device not found").
Definition Forbidden : Response := mkResponse 401 (Text "User not authorized").
Definition DuplicateReview : Response :=
  mkResponse 400 (Text "You already reviewd this device").
Definition ReviewNotFound : Response :=
  mkResponse 400 (Text "Device has not yet been reviewed.").
Definition OutsideAdmissionWindow : Response :=
  mkResponse 405 (Text "You are not allowed to check out any device this time.").
Definition UserAlreadyHolding : Response :=
  mkResponse 405 (Text "You already checked out another device.").
Definition AlreadyCheckedOut : Response :=
  mkResponse 404 (Text "Device is already checked out.").
Definition NotCheckedOut : Response :=
  mkResponse 404 (Text "Device isn't checked out.").
Definition NotHolder : Response :=
  mkResponse 405 (Text "This deviced isn't checked out by you.").

(** ** Collection operations (mongoose) *)

(** [Device.find().sort({ date: -1 })]: the schema has no [date] path, so
    the sort key is absent from every document and the answer is the whole
    collection, every document once, in the order in which the store
    enumerates it. The store's order is its own (that of insertion); the
    map enumerates by key, and the properties below speak of the content of
    the list, not of its order. *)
Definition find_sorted (db : Db) : list (ObjectId * Device) :=
  map_to_list (devices db).

(** [Device.findOne(query)]: some document that matches, if there is one. *)
Definition findOne (q : Device → bool) (db : Db) : option (ObjectId * Device) :=
  List.find (λ kd, q kd.2) (map_to_list (devices db)).

(** The query [{ lastCheckedOutBy: uid, isCheckedOut: true }]. *)
Definition heldBy (uid : ObjectId) (d : Device) : bool :=
  bool_decide (lastCheckedOutBy d = Some uid) && isCheckedOut d.

(** [device.save()] of a document that was read from the collection. *)
Definition save (id : ObjectId) (d : Device) (db : Db) : Db :=
  mkDb (<[id := d]> (devices db)) (users db).

(** [device.remove()]. *)
Definition remove (id : ObjectId) (db : Db) : Db :=
  mkDb (delete id (devices db)) (users db).

(** Updates of single paths of a device document. *)
Definition set_feedbacks (fs : list Feedback.t) (d : Device) : Device :=
  mkDevice (model d) (os d) (manufacturer d) (lastCheckedOutBy d)
    (lastCheckedOutDate d) (lastCheckedInDate d) (registeredBy d)
    (registeredDate d) (isCheckedOut d) fs.

Definition set_checkedOut (uid : ObjectId) (now : Z) (d : Device) : Device :=
  mkDevice (model d) (os d) (manufacturer d) (Some uid) (Some now)
    (lastCheckedInDate d) (registeredBy d) (registeredDate d) true
    (feedbacks d).

Definition set_checkedIn (now : Z) (d : Device) : Device :=
  mkDevice (model d) (os d) (manufacturer d) (lastCheckedOutBy d)
    (lastCheckedOutDate d) (Some now) (registeredBy d) (registeredDate d)
    false (feedbacks d).

(** ** The handlers

    Every handler takes the state of the two collections and answers with a
    response and the state it leaves. [reqUser] is [req.user.id], the
    identity the [auth] middleware attached to the request, and [id] is
    [req.params.id], which [checkObjectId] has let through. *)

(** The parts of a request in which express-validator's [check] looks for
    a field, each an object from names to values: [req.body],
    [req.cookies], [req.headers], [req.params] and [req.query]. *)
Module Req.
Record t : Type := mk {
  body : gmap string string;
  cookies : gmap string string;
  headers : gmap string string;
  params : gmap string string;
  query : gmap string string
}.
End Req.

(** The locations of a [check] chain, in its order. *)
Definition locations (req : Req.t) : list (gmap string string) :=
  [Req.body req; Req.cookies req; Req.headers req; Req.params req; Req.query req].

(** The instances of [field] that a [check] chain validates: its value in
    every location that has one; when no location has one, a single
    undefined instance, which validates as the empty string. *)
Definition instances (req : Req.t) (field : string) : list string :=
  match omap (λ location : gmap string string, location !! field) (locations req) with
  | [] => [""]
  | withValue => withValue
  end.

(** [.notEmpty()] with its message, on one instance. *)
Definition notEmpty (value msg : string) : list string :=
  if String.eqb value "" then [msg] else [].

(** [check(field, msg).notEmpty()]: one error for every instance that is
    empty. *)
Definition check (req : Req.t) (field msg : string) : list string :=
  flat_map (λ value, notEmpty value msg) (instances req field).

(** [validationResult(req)] after the three chains of the route (lines
    16-18), in their order. *)
Definition validationResult (req : Req.t) : list string :=
  check req "model" "model is required"
  ++ check req "os" "os is required"
  ++ check req "manufacturer" "manufacturer is required".

Definition isEmpty (errors : list string) : bool :=
  match errors with [] => true | _ => false end.

(** [new Device({ model, os, manufacturer, registeredBy })]: the schema
    defaults fill [registeredDate] (the number computed when the schema was
    defined) and [isCheckedOut]; [feedbacks] starts empty. *)
Definition newDevice (srv : Server) (body_model body_os body_manufacturer : string)
    (registeredBy : ObjectId) : Device :=
  mkDevice body_model body_os body_manufacturer None None None registeredBy
    (loadTime srv) false [].

(** The [required] validator of a String path, which [save] runs: the
    value is not the empty string. *)
Definition required (value : string) : bool := negb (String.eqb value "").

(** POST api/devices (lines 13-47). [oid] is the [_id] the driver generates
    for the new document. The device is built from [req.body]; [save]
    throws when a required path is missing from it or empty, and when the
    key [oid] is taken (the collection's unique index on [_id]). *)
Definition post_devices (srv : Server) (db : Db) (oid reqUser : ObjectId)
    (req : Req.t) : Response * Db :=
  let errors := validationResult req in
  if negb (isEmpty errors) then (ValidationError errors, db)
  else
    let deviceNumber := size (devices db) in
    if (10 <=? deviceNumber)%nat then (CapacityExceeded, db)
    else
      match users db !! reqUser with
      | None => (ServerError, db)
      | Some user =>
          match Req.body req !! "model", Req.body req !! "os",
                Req.body req !! "manufacturer" with
          | Some body_model, Some body_os, Some body_manufacturer =>
              let device :=
                newDevice srv body_model body_os body_manufacturer reqUser in
              if required body_model && required body_os
                 && required body_manufacturer
              then
                match devices db !! oid with
                | Some _ => (ServerError, db)
                | None => (json (DeviceDoc oid device), save oid device db)
                end
              else (ServerError, db)
          | _, _, _ => (ServerError, db)
          end
      end.

(** A request that carries the three fields in its body and nothing under
    their names anywhere else. *)
Definition body_only (body_model body_os body_manufacturer : string) : Req.t :=
  Req.mk
    (<["model" := body_model]>
       (<["os" := body_os]> (<["manufacturer" := body_manufacturer]> ∅)))
    ∅ ∅ ∅ ∅.

(** The handler on such a request. *)
Definition register (srv : Server) (db : Db) (oid reqUser : ObjectId)
    (body_model body_os body_manufacturer : string) : Response * Db :=
  post_devices srv db oid reqUser (body_only body_model body_os body_manufacturer).

(** GET api/devices (lines 52-60). *)
Definition list_devices (db : Db) : Response * Db :=
  (json (DeviceDocs (find_sorted db)), db).

(** DELETE api/devices/:id (lines 65-86). *)
Definition delete_device (db : Db) (id reqUser : ObjectId) : Response * Db :=
  match devices db !! id with
  | None => (NotFound, db)
  | Some device =>
      if negb (String.eqb (registeredBy device) reqUser) then (Forbidden, db)
      else (json (Msg "Device removed"), remove id db)
  end.

(** [device.feedbacks.some(feedback => feedback.user.toString() === uid)]. *)
Definition reviewedBy (uid : ObjectId) (device : Device) : bool :=
  existsb (λ feedback, String.eqb (Feedback.user feedback) uid) (feedbacks device).

(** [({ user }) => user.toString() !== uid], the test of the removal
    filter. *)
Definition notBy (uid : ObjectId) (feedback : Feedback.t) : bool :=
  negb (String.eqb (Feedback.user feedback) uid).

(** PUT api/devices/feedback/:id (lines 91-119). The handler does not test
    what [findById] returned: on [null], reading [device.feedbacks] throws
    and the [catch] block answers. [body_rating] absent takes the schema
    default 5, [date] the time [now] at which the entry is built; [name]
    is [required], so [save] rejects an empty one. *)
Definition add_feedback (db : Db) (id reqUser : ObjectId)
    (body_rating : option Z) (body_text : option string) (now : Z)
  : Response * Db :=
  match devices db !! id with
  | None => (ServerError, db)
  | Some device =>
      if reviewedBy reqUser device then (DuplicateReview, db)
      else
        match users db !! reqUser with
        | None => (ServerError, db)
        | Some user =>
            let entry :=
              Feedback.mk reqUser (User.name user) (default 5%Z body_rating)
                body_text now in
            let device' := set_feedbacks (entry :: feedbacks device) device in
            if String.eqb (User.name user) "" then (ServerError, db)
            else (json (FeedbackDocs (feedbacks device')), save id device' db)
        end
  end.

(** DELETE api/devices/feedback/:id (lines 124-149); [findById] is
    unchecked as above. *)
Definition remove_feedback (db : Db) (id reqUser : ObjectId) : Response * Db :=
  match devices db !! id with
  | None => (ServerError, db)
  | Some device =>
      if negb (reviewedBy reqUser device) then (ReviewNotFound, db)
      else
        let device' :=
          set_feedbacks (List.filter (notBy reqUser) (feedbacks device)) device in
        (json (FeedbackDocs (feedbacks device')), save id device' db)
  end.

(** POST api/devices/checkout/:id (lines 154-202). The clock is read twice:
    [entry] is the instant of [new Date()] on line 157, [commit] that of
    [Date.now()] on line 191. *)
Definition checkout (srv : Server) (db : Db) (id reqUser : ObjectId)
    (entry commit : Z) : Response * Db :=
  let currentHours := getHours srv entry in
  if (currentHours <? 15)%Z || (currentHours >? 17)%Z
  then (OutsideAdmissionWindow, db)
  else
    match devices db !! id with
    | None => (NotFound, db)
    | Some device =>
        match users db !! reqUser with
        | None => (ServerError, db)
        | Some user =>
            match findOne (heldBy reqUser) db with
            | Some anotherDevice => (UserAlreadyHolding, db)
            | None =>
                if isCheckedOut device then (AlreadyCheckedOut, db)
                else
                  let db' := save id (set_checkedOut reqUser commit device) db in
                  (json (DeviceDocs (find_sorted db')), db')
            end
        end
    end.

(** POST api/devices/checkin/:id (lines 207-241).
    [device.lastCheckedOutBy != user.id] compares the stored id, if any,
    with the caller's. *)
Definition checkin (db : Db) (id reqUser : ObjectId) (now : Z) : Response * Db :=
  match devices db !! id with
  | None => (NotFound, db)
  | Some device =>
      if negb (isCheckedOut device) then (NotCheckedOut, db)
      else
        match users db !! reqUser with
        | None => (ServerError, db)
        | Some user =>
            if negb (bool_decide (lastCheckedOutBy device = Some reqUser))
            then (NotHolder, db)
            else
              let db' := save id (set_checkedIn now device) db in
              (json (DeviceDocs (find_sorted db')), db')
        end
  end.

(** ** Requests and runs *)

Inductive Op : Type :=
| Register (oid reqUser : ObjectId) (req : Req.t)
| List
| Remove (id reqUser : ObjectId)
| AddFeedback (id reqUser : ObjectId) (body_rating : option Z)
    (body_text : option string) (now : Z)
| RemoveFeedback (id reqUser : ObjectId)
| CheckOut (id reqUser : ObjectId) (entry commit : Z)
| CheckIn (id reqUser : ObjectId) (now : Z).

(** One request served from start to end. *)
Definition step (srv : Server) (db : Db) (op : Op) : Response * Db :=
  match op with
  | Register oid u req => post_devices srv db oid u req
  | List => list_devices db
  | Remove id u => delete_device db id u
  | AddFeedback id u r t now => add_feedback db id u r t now
  | RemoveFeedback id u => remove_feedback db id u
  | CheckOut id u entry commit => checkout srv db id u entry commit
  | CheckIn id u now => checkin db id u now
  end.

(** Requests served one after the other: the responses, in order, and the
    final state. *)
Fixpoint run (srv : Server) (db : Db) (ops : list Op) : list Response * Db :=
  match ops with
  | [] => ([], db)
  | op :: ops' =>
      let '(r, db1) := step srv db op in
      let '(rs, db2) := run srv db1 ops' in
      (r :: rs, db2)
  end.

(** The registry before any device was registered. *)
Definition init (us : gmap string User.t) : Db := mkDb ∅ us.

(** The states the router can be in: it starts with an empty device
    collection, serves requests one at a time, and the user collection may
    change in between (the users router writes it, this one never does). *)
Inductive reachable (srv : Server) : Db → Prop :=
| reach_init us : reachable srv (init us)
| reach_step db op : reachable srv db → reachable srv (step srv db op).2
| reach_users db us : reachable srv db → reachable srv (mkDb (devices db) us).

(** ** The vocabulary of the properties *)

(** A user holds a device when it is checked out and its last check-out is
    the user's. *)
Definition holding (uid : ObjectId) (d : Device) : Prop :=
  isCheckedOut d = true ∧ lastCheckedOutBy d = Some uid.

(** The hour of [t] lies in the check-out window. *)
Definition inWindow (srv : Server) (t : Z) : Prop :=
  (15 ≤ getHours srv t ≤ 17)%Z.

(** What a handler leaves when it fails: the state it was given. *)
Definition fails_with (r : Response) (db : Db) (out : Response * Db) : Prop :=
  out = (r, db).

(** What a handler leaves when it rewrites one device: that document
    replaced, every other document and the users as they were. *)
Definition rewrites (id : ObjectId) (d' : Device) (db db' : Db) : Prop :=
  devices db' !! id = Some d'
  ∧ (∀ k, k ≠ id → devices db' !! k = devices db !! k)
  ∧ users db' = users db.

(** At most one entry per reviewer. *)
Definition one_per_reviewer (fs : list Feedback.t) : Prop :=
  NoDup (Feedback.user <$> fs).

Definition ledgers_ok (m : gmap string Device) : Prop :=
  ∀ id d, m !! id = Some d → one_per_reviewer (feedbacks d).

(** No user holds two devices. *)
Definition exclusive (m : gmap string Device) : Prop :=
  ∀ uid k1 k2 d1 d2,
    m !! k1 = Some d1 → m !! k2 = Some d2 →
    holding uid d1 → holding uid d2 → k1 = k2.

(** *** What a request can do to the collections *)

(** The writes of the router, each with the tests that guard it. A request
    either leaves the state as it was or performs one of them. *)
Inductive effect (srv : Server) (db : Db) : Op → Db → Prop :=
| eff_none op : effect srv db op db
| eff_register oid u req m o mf :
    devices db !! oid = None → size (devices db) < 10 →
    effect srv db (Register oid u req) (save oid (newDevice srv m o mf u) db)
| eff_remove id u device :
    devices db !! id = Some device →
    effect srv db (Remove id u) (remove id db)
| eff_add_feedback id u r t now device entry :
    devices db !! id = Some device → reviewedBy u device = false →
    Feedback.user entry = u →
    effect srv db (AddFeedback id u r t now)
      (save id (set_feedbacks (entry :: feedbacks device) device) db)
| eff_remove_feedback id u device :
    devices db !! id = Some device →
    effect srv db (RemoveFeedback id u)
      (save id (set_feedbacks (List.filter (notBy u) (feedbacks device)) device) db)
| eff_checkout id u entry commit device :
    devices db !! id = Some device → isCheckedOut device = false →
    (¬ ∃ k d, devices db !! k = Some d ∧ holding u d) →
    effect srv db (CheckOut id u entry commit)
      (save id (set_checkedOut u commit device) db)
| eff_checkin id u now device :
    devices db !! id = Some device →
    effect srv db (CheckIn id u now) (save id (set_checkedIn now device) db).

(** A field passes its [check] chain: some location of the request
    carries it, and no location carries it empty. *)
Definition field_valid (req : Req.t) (field : string) : Prop :=
  (∃ location, location ∈ locations req ∧ is_Some (location !! field))
  ∧ ∀ location, location ∈ locations req → location !! field ≠ Some "".

Definition fields_valid (req : Req.t) : Prop :=
  field_valid req "model" ∧ field_valid req "os"
  ∧ field_valid req "manufacturer".

(** The body of the request carries the field. *)
Definition in_body (req : Req.t) (field : string) : Prop :=
  is_Some (Req.body req !! field).

(** A registration request: the [_id] generated for the document, the
    caller, and the request. *)
Record Registration : Type := mkRegistration {
  reg_oid : ObjectId;
  reg_user : ObjectId;
  reg_req : Req.t
}.

Definition register_op (r : Registration) : Op :=
  Register (reg_oid r) (reg_user r) (reg_req r).

(** The fields are valid (they pass validation and the body carries them)
    and the caller's document exists. *)
Definition valid_registration (us : gmap string User.t) (r : Registration) : Prop :=
  fields_valid (reg_req r)
  ∧ in_body (reg_req r) "model" ∧ in_body (reg_req r) "os"
  ∧ in_body (reg_req r) "manufacturer"
  ∧ is_Some (us !! reg_user r).

(** ** A sample pool *)

(** A server in UTC whose schema was loaded on 2020-09-13 at 12:26:40. *)
Definition sample_srv : Server := mkServer 1600000000000%Z (λ _, 0%Z).

(** 12:26:40, 15:00:00 and 15:01:00 of that day. *)
Definition noon : Z := 1600000000000%Z.
Definition three : Z := 1600009200000%Z.
Definition past_three : Z := 1600009260000%Z.

Definition sample_users : gmap string User.t :=
  <["alice" := User.mk "Alice"]> (<["bob" := User.mk "Bob"]> ∅).

(** A phone on the shelf, reviewed by bob, and a tablet that bob holds. *)
Definition phone : Device :=
  mkDevice "Pixel 4" "Android" "Google" None None None "alice" noon
    false [Feedback.mk "bob" "Bob" 4%Z (Some "Good battery") 1600000100000%Z].

Definition tablet : Device :=
  mkDevice "iPad" "iOS" "Apple" (Some "bob") (Some three) None "bob"
    noon true [].

Definition sample_db : Db :=
  mkDb (<["d1" := phone]> (<["d2" := tablet]> ∅)) sample_users.

(** A ledger that holds two entries of one reviewer, as no run of the
    router produces it. *)
Definition twice_reviewed : Device :=
  set_feedbacks
    [Feedback.mk "bob" "Bob" 4%Z (Some "Good battery") 1600000100000%Z;
     Feedback.mk "alice" "Alice" 5%Z None 1600000200000%Z;
     Feedback.mk "bob" "Bob" 2%Z (Some "Screen cracked") 1600000300000%Z]
    phone.

Definition doubled_db : Db := mkDb (<["d1" := twice_reviewed]> ∅) sample_users.

(** Ten registrations by alice. *)
Definition sample_registration (oid : ObjectId) : Registration :=
  mkRegistration oid "alice" (body_only "Pixel 4" "Android" "Google").

Definition ten_registrations : list Registration :=
  sample_registration
    <$> ["d01"; "d02"; "d03"; "d04"; "d05"; "d06"; "d07"; "d08"; "d09"; "d10"].

Definition full_db : Db :=
  (run sample_srv (init sample_users) (register_op <$> ten_registrations)).2.

(** Two registrations, then alice takes d1, asks for d2 in vain, and bob
    takes d2. *)
Definition sample_run : list Op :=
  [ Register "d1" "alice" (body_only "Pixel 4" "Android" "Google");
    Register "d2" "bob" (body_only "iPad" "iOS" "Apple");
    CheckOut "d1" "alice" three three;
    CheckOut "d2" "alice" past_three past_three;
    CheckOut "d2" "bob" past_three past_three ].

Definition after_sample_run : Db :=
  (run sample_srv (init sample_users) sample_run).2.

(** ** What a request can do to one document *)

(** The attributes a device gets when it is registered. *)
Definition same_registration (d d' : Device) : Prop :=
  model d' = model d ∧ os d' = os d ∧ manufacturer d' = manufacturer d
  ∧ registeredBy d' = registeredBy d ∧ registeredDate d' = registeredDate d.

(** The ways in which a request leaves the document stored under [id] when
    it was there before and is there after, each with the request that
    does it and the tests that request has passed. *)
Inductive change (id : ObjectId) (d : Device) : Op → Device → Prop :=
| ch_none op : change id d op d
| ch_add_feedback u r t now name :
    reviewedBy u d = false → name ≠ "" →
    change id d (AddFeedback id u r t now)
      (set_feedbacks (Feedback.mk u name (default 5%Z r) t now :: feedbacks d) d)
| ch_remove_feedback u :
    reviewedBy u d = true →
    change id d (RemoveFeedback id u)
      (set_feedbacks (List.filter (notBy u) (feedbacks d)) d)
| ch_checkout u entry commit :
    isCheckedOut d = false →
    change id d (CheckOut id u entry commit) (set_checkedOut u commit d)
| ch_checkin u now :
    isCheckedOut d = true → lastCheckedOutBy d = Some u →
    change id d (CheckIn id u now) (set_checkedIn now d).

(** What every stored document satisfies: the three required fields are
    filled in, the registration date is the load time of the schema, a
    checked-out device records who took it and when, a device that was
    checked in was checked out before, and every feedback entry carries a
    name. *)
Definition sound_document (srv : Server) (d : Device) : Prop :=
  model d ≠ "" ∧ os d ≠ "" ∧ manufacturer d ≠ ""
  ∧ registeredDate d = loadTime srv
  ∧ (isCheckedOut d = true →
     is_Some (lastCheckedOutBy d) ∧ is_Some (lastCheckedOutDate d))
  ∧ (is_Some (lastCheckedInDate d) → is_Some (lastCheckedOutBy d))
  ∧ (is_Some (lastCheckedOutBy d) ↔ is_Some (lastCheckedOutDate d))
  ∧ ∀ fb, fb ∈ feedbacks d → Feedback.name fb ≠ "".

(** The milliseconds since local midnight at the instant [t], on a host
    whose clock is [tz] minutes behind UTC. *)
Definition msOfDay (tz t : Z) : Z := ((t - tz * 60000) mod 86400000)%Z.

(** A third user, and the sample pool with her in it. *)
Definition sample_users3 : gmap string User.t :=
  <["carol" := User.mk "Carol"]> sample_users.

Definition sample_db3 : Db := mkDb (devices sample_db) sample_users3.

(** The body gives an os only, the query an empty model. *)
Definition incomplete_request : Req.t :=
  Req.mk (<["os" := "Android"]> ∅) ∅ ∅ ∅ (<["model" := ""]> ∅).

(** The three fields come in the query, the body is empty. *)
Definition query_request : Req.t :=
  Req.mk ∅ ∅ ∅ ∅
    (<["model" := "Kindle"]>
       (<["os" := "Fire OS"]> (<["manufacturer" := "Amazon"]> ∅))).

(** ** Properties *)

(** *** The queries *)

Lemma heldBy_spec uid d : heldBy uid d = true ↔ holding uid d.
Proof.
  unfold heldBy, holding.
  rewrite andb_true_iff, bool_decide_eq_true. tauto.
Qed.

Lemma findOne_None q db :
  findOne q db = None ↔ ∀ k d, devices db !! k = Some d → q d = false.
Proof.
  unfold findOne. split.
  - intros Hnone k d Hk.
    apply (find_none _ _ Hnone (k, d)).
    apply list_elem_of_In, elem_of_map_to_list, Hk.
  - intros Hall.
    destruct (find _ _) as [[k d]|] eqn:Hfind; [|done].
    apply find_some in Hfind as [Hin Hq].
    apply list_elem_of_In, elem_of_map_to_list in Hin.
    simpl in Hq. rewrite (Hall _ _ Hin) in Hq. done.
Qed.

Lemma findOne_Some q db k d :
  findOne q db = Some (k, d) → devices db !! k = Some d ∧ q d = true.
Proof.
  unfold findOne. intros Hfind.
  apply find_some in Hfind as [Hin Hq].
  by apply list_elem_of_In, elem_of_map_to_list in Hin.
Qed.

Lemma findOne_heldBy_None uid db :
  findOne (heldBy uid) db = None ↔
  ¬ ∃ k d, devices db !! k = Some d ∧ holding uid d.
Proof.
  rewrite findOne_None. split.
  - intros Hall (k & d & Hk & Hh).
    apply heldBy_spec in Hh. rewrite (Hall _ _ Hk) in Hh. done.
  - intros Hno k d Hk.
    destruct (heldBy uid d) eqn:Hh; [|done].
    exfalso. apply Hno. exists k, d. by rewrite <- heldBy_spec.
Qed.

Lemma getHours_range srv t : (0 ≤ getHours srv t < 24)%Z.
Proof. unfold getHours. apply Z.mod_pos_bound. lia. Qed.

Lemma window_test srv t :
  (getHours srv t <? 15)%Z || (getHours srv t >? 17)%Z = false ↔ inWindow srv t.
Proof. unfold inWindow. rewrite orb_false_iff, Z.ltb_ge, Z.gtb_ltb, Z.ltb_ge. lia. Qed.

Lemma save_rewrites id d' db : rewrites id d' db (save id d' db).
Proof.
  unfold rewrites, save; simpl. split; [apply lookup_insert_eq|].
  split; [|done]. intros k Hk. by apply lookup_insert_ne.
Qed.

(** The list the router answers with holds every document of the
    collection, once, under its id, and nothing else. *)
Lemma find_sorted_full db :
  NoDup (find_sorted db).*1
  ∧ ∀ k d, (k, d) ∈ find_sorted db ↔ devices db !! k = Some d.
Proof.
  unfold find_sorted. split; [apply NoDup_fst_map_to_list|].
  intros k d. apply elem_of_map_to_list.
Qed.

(** *** Check-out *)

(** C1. Check-out tests, in this order: the hour of day of the request
    (outside 15..17 it answers OutsideAdmissionWindow, whatever the
    collections hold); the device (NotFound); whether any device is checked
    out with the caller as last holder (UserAlreadyHolding); whether the
    target is checked out (AlreadyCheckedOut). Otherwise it sets
    isCheckedOut, lastCheckedOutBy and lastCheckedOutDate on the target,
    touches nothing else, and answers with the device list read after the
    write: every device of the registry as the write leaves it, each once
    under its id, and nothing else. Each failure leaves the state as it
    was. The caller is an authenticated user, whose document exists. *)
Theorem checkout_checks_in_order srv db id uid entry commit :
  (¬ inWindow srv entry →
     fails_with OutsideAdmissionWindow db (checkout srv db id uid entry commit))
  ∧ (inWindow srv entry → devices db !! id = None →
     fails_with NotFound db (checkout srv db id uid entry commit))
  ∧ (∀ device,
       inWindow srv entry → devices db !! id = Some device →
       is_Some (users db !! uid) →
       ((∃ k d, devices db !! k = Some d ∧ holding uid d) →
          fails_with UserAlreadyHolding db (checkout srv db id uid entry commit))
       ∧ ((¬ ∃ k d, devices db !! k = Some d ∧ holding uid d) →
          isCheckedOut device = true →
          fails_with AlreadyCheckedOut db (checkout srv db id uid entry commit))
       ∧ ((¬ ∃ k d, devices db !! k = Some d ∧ holding uid d) →
          isCheckedOut device = false →
          ∃ device' db' ds,
            checkout srv db id uid entry commit = (json (DeviceDocs ds), db')
            ∧ NoDup ds.*1
            ∧ (∀ k d, (k, d) ∈ ds ↔ devices db' !! k = Some d)
            ∧ (id, device') ∈ ds
            ∧ rewrites id device' db db'
            ∧ isCheckedOut device' = true
            ∧ lastCheckedOutBy device' = Some uid
            ∧ lastCheckedOutDate device' = Some commit
            ∧ set_checkedOut uid commit device = device')).
Proof.
  unfold fails_with, checkout.
  split; [|split].
  - intros Hout. rewrite <- window_test in Hout.
    by destruct (_ || _).
  - intros Hin Hid. apply window_test in Hin. by rewrite Hin, Hid.
  - intros device Hin Hid [user Huser].
    apply window_test in Hin. rewrite Hin, Hid, Huser.
    split; [|split].
    + intros Hheld.
      destruct (findOne (heldBy uid) db) as [another|] eqn:Hfind; [done|].
      apply findOne_heldBy_None in Hfind. contradiction.
    + intros Hfree Hout. apply findOne_heldBy_None in Hfree.
      by rewrite Hfree, Hout.
    + intros Hfree Hout. apply findOne_heldBy_None in Hfree.
      rewrite Hfree, Hout.
      set (db' := save id (set_checkedOut uid commit device) db).
      destruct (find_sorted_full db') as [Hnodup Hlist].
      exists (set_checkedOut uid commit device), db', (find_sorted db').
      split_and!; try done.
      * apply Hlist, lookup_insert_eq.
      * apply save_rewrites.
Qed.

Lemma hours_noon : getHours sample_srv noon = 12%Z.
Proof. reflexivity. Qed.

Lemma hours_three : getHours sample_srv three = 15%Z.
Proof. reflexivity. Qed.

Lemma hours_past_three : getHours sample_srv past_three = 15%Z.
Proof. reflexivity. Qed.

(** At noon alice is turned away; at three she asks for a device that does
    not exist, bob asks for the phone while he holds the tablet, alice asks
    for the tablet that bob holds, and alice takes the phone. *)
Lemma checkout_checks_in_order_witness :
  fails_with OutsideAdmissionWindow sample_db
    (checkout sample_srv sample_db "d1" "alice" noon noon)
  ∧ fails_with NotFound sample_db
      (checkout sample_srv sample_db "d9" "alice" three past_three)
  ∧ fails_with UserAlreadyHolding sample_db
      (checkout sample_srv sample_db "d1" "bob" three past_three)
  ∧ fails_with AlreadyCheckedOut sample_db
      (checkout sample_srv sample_db "d2" "alice" three past_three)
  ∧ ∃ device' db' ds,
      checkout sample_srv sample_db "d1" "alice" three past_three
        = (json (DeviceDocs ds), db')
      ∧ NoDup ds.*1
      ∧ (∀ k d, (k, d) ∈ ds ↔ devices db' !! k = Some d)
      ∧ (("d1", device') ∈ ds)
      ∧ rewrites "d1" device' sample_db db'
      ∧ isCheckedOut device' = true
      ∧ lastCheckedOutBy device' = Some "alice"
      ∧ lastCheckedOutDate device' = Some past_three
      ∧ set_checkedOut "alice" past_three phone = device'.
Proof.
  assert (inWindow sample_srv three) as Hthree.
  { unfold inWindow. rewrite hours_three. lia. }
  assert (¬ ∃ k d, devices sample_db !! k = Some d ∧ holding "alice" d) as Hfree.
  { apply findOne_heldBy_None. vm_compute. reflexivity. }
  split; [|split; [|split; [|split]]].
  - apply (checkout_checks_in_order sample_srv sample_db "d1" "alice" noon noon).
    unfold inWindow. rewrite hours_noon. lia.
  - apply (checkout_checks_in_order sample_srv sample_db "d9" "alice" three past_three).
    + exact Hthree.
    + vm_compute. reflexivity.
  - apply (checkout_checks_in_order sample_srv sample_db "d1" "bob" three past_three)
      with phone.
    + exact Hthree.
    + vm_compute. reflexivity.
    + exists (User.mk "Bob"). vm_compute. reflexivity.
    + exists "d2", tablet. split; [vm_compute; reflexivity|]. by split.
  - apply (checkout_checks_in_order sample_srv sample_db "d2" "alice" three past_three)
      with tablet.
    + exact Hthree.
    + vm_compute. reflexivity.
    + exists (User.mk "Alice"). vm_compute. reflexivity.
    + exact Hfree.
    + reflexivity.
  - apply (checkout_checks_in_order sample_srv sample_db "d1" "alice" three past_three).
    + exact Hthree.
    + vm_compute. reflexivity.
    + exists (User.mk "Alice"). vm_compute. reflexivity.
    + exact Hfree.
    + reflexivity.
Defined.

(** *** Check-in *)

(** C2. Check-in tests, in this order: the device (NotFound); that it is
    checked out (NotCheckedOut); that its last check-out is the caller's
    (NotHolder). Each failure leaves the state as it was. Otherwise it
    clears isCheckedOut and sets lastCheckedInDate, keeps lastCheckedOutBy
    and everything else, and answers with the device list read after the
    write: every device of the registry as the write leaves it, each once
    under its id, and nothing else. The caller is an authenticated user,
    whose document exists. *)
Theorem checkin_checks_in_order db id uid now :
  (devices db !! id = None → fails_with NotFound db (checkin db id uid now))
  ∧ (∀ device,
       devices db !! id = Some device →
       (isCheckedOut device = false →
          fails_with NotCheckedOut db (checkin db id uid now))
       ∧ (is_Some (users db !! uid) →
          isCheckedOut device = true →
          lastCheckedOutBy device ≠ Some uid →
          fails_with NotHolder db (checkin db id uid now))
       ∧ (is_Some (users db !! uid) →
          isCheckedOut device = true →
          lastCheckedOutBy device = Some uid →
          ∃ device' db' ds,
            checkin db id uid now = (json (DeviceDocs ds), db')
            ∧ NoDup ds.*1
            ∧ (∀ k d, (k, d) ∈ ds ↔ devices db' !! k = Some d)
            ∧ (id, device') ∈ ds
            ∧ rewrites id device' db db'
            ∧ isCheckedOut device' = false
            ∧ lastCheckedInDate device' = Some now
            ∧ lastCheckedOutBy device' = lastCheckedOutBy device
            ∧ set_checkedIn now device = device')).
Proof.
  unfold fails_with, checkin.
  split.
  - by intros ->.
  - intros device ->. split; [|split].
    + by intros ->.
    + intros [user ->] -> Hother.
      by rewrite bool_decide_eq_false_2.
    + intros [user ->] -> Hmine.
      rewrite bool_decide_eq_true_2 by done. simpl.
      set (db' := save id (set_checkedIn now device) db).
      destruct (find_sorted_full db') as [Hnodup Hlist].
      exists (set_checkedIn now device), db', (find_sorted db').
      split_and!; try done.
      * apply Hlist, lookup_insert_eq.
      * apply save_rewrites.
Qed.

(** Bob returns the tablet; alice, who does not hold it, cannot; the phone
    on the shelf cannot be returned; an unknown device is not found. *)
Lemma checkin_checks_in_order_witness :
  fails_with NotFound sample_db (checkin sample_db "d9" "bob" past_three)
  ∧ fails_with NotCheckedOut sample_db (checkin sample_db "d1" "bob" past_three)
  ∧ fails_with NotHolder sample_db (checkin sample_db "d2" "alice" past_three)
  ∧ ∃ device' db' ds,
      checkin sample_db "d2" "bob" past_three = (json (DeviceDocs ds), db')
      ∧ NoDup ds.*1
      ∧ (∀ k d, (k, d) ∈ ds ↔ devices db' !! k = Some d)
      ∧ (("d2", device') ∈ ds)
      ∧ rewrites "d2" device' sample_db db'
      ∧ isCheckedOut device' = false
      ∧ lastCheckedInDate device' = Some past_three
      ∧ lastCheckedOutBy device' = lastCheckedOutBy tablet
      ∧ set_checkedIn past_three tablet = device'.
Proof.
  split; [|split; [|split]].
  - apply (checkin_checks_in_order sample_db "d9" "bob" past_three).
    vm_compute. reflexivity.
  - apply (checkin_checks_in_order sample_db "d1" "bob" past_three) with phone.
    + vm_compute. reflexivity.
    + reflexivity.
  - apply (checkin_checks_in_order sample_db "d2" "alice" past_three) with tablet.
    + vm_compute. reflexivity.
    + exists (User.mk "Alice"). vm_compute. reflexivity.
    + reflexivity.
    + discriminate.
  - apply (checkin_checks_in_order sample_db "d2" "bob" past_three).
    + vm_compute. reflexivity.
    + exists (User.mk "Bob"). vm_compute. reflexivity.
    + reflexivity.
    + reflexivity.
Defined.

(** *** Removal *)

(** C9. Removal answers NotFound for an absent device and Forbidden for a
    caller other than the one who registered it, both without a change.
    Otherwise the document is deleted, whether or not the device is
    checked out, and every other document stays as it was. *)
Theorem delete_device_spec db id uid :
  (devices db !! id = None → fails_with NotFound db (delete_device db id uid))
  ∧ (∀ device,
       devices db !! id = Some device →
       (registeredBy device ≠ uid →
          fails_with Forbidden db (delete_device db id uid))
       ∧ (registeredBy device = uid →
          ∃ db',
            delete_device db id uid = (json (Msg "Device removed"), db')
            ∧ devices db' !! id = None
            ∧ (∀ k, k ≠ id → devices db' !! k = devices db !! k)
            ∧ users db' = users db)).
Proof.
  unfold fails_with, delete_device.
  split.
  - by intros ->.
  - intros device ->. split.
    + intros Hother. apply String.eqb_neq in Hother. by rewrite Hother.
    + intros Hmine. apply String.eqb_eq in Hmine. rewrite Hmine. simpl.
      eexists. split; [reflexivity|]. unfold remove; simpl.
      split; [apply lookup_delete_eq|].
      split; [|done]. intros k Hk. by apply lookup_delete_ne.
Qed.

(** Bob removes the tablet he registered while he holds it; alice may not;
    the phone stays. *)
Lemma delete_device_spec_witness :
  fails_with NotFound sample_db (delete_device sample_db "d9" "bob")
  ∧ fails_with Forbidden sample_db (delete_device sample_db "d2" "alice")
  ∧ isCheckedOut tablet = true
  ∧ ∃ db',
      delete_device sample_db "d2" "bob" = (json (Msg "Device removed"), db')
      ∧ devices db' !! "d2" = None
      ∧ (∀ k, k ≠ "d2" → devices db' !! k = devices sample_db !! k)
      ∧ users db' = users sample_db.
Proof.
  split; [|split; [|split]].
  - apply (delete_device_spec sample_db "d9" "bob"). vm_compute. reflexivity.
  - apply (delete_device_spec sample_db "d2" "alice") with tablet.
    + vm_compute. reflexivity.
    + discriminate.
  - reflexivity.
  - apply (delete_device_spec sample_db "d2" "bob") with tablet.
    + vm_compute. reflexivity.
    + reflexivity.
Defined.

(** *** The feedback ledger *)

Lemma reviewedBy_true uid d :
  reviewedBy uid d = true ↔ ∃ fb, fb ∈ feedbacks d ∧ Feedback.user fb = uid.
Proof.
  unfold reviewedBy. rewrite existsb_exists. split.
  - intros (fb & Hin & Heq). exists fb.
    by rewrite list_elem_of_In, <- String.eqb_eq.
  - intros (fb & Hin & Heq). exists fb.
    by rewrite <- list_elem_of_In, String.eqb_eq.
Qed.

Lemma reviewedBy_false uid d :
  reviewedBy uid d = false ↔ ∀ fb, fb ∈ feedbacks d → Feedback.user fb ≠ uid.
Proof.
  rewrite <- not_true_iff_false, reviewedBy_true. split.
  - intros Hno fb Hin Heq. apply Hno. by exists fb.
  - intros Hall (fb & Hin & Heq). by apply (Hall fb).
Qed.

Lemma notBy_true uid fb : notBy uid fb = true ↔ Feedback.user fb ≠ uid.
Proof. unfold notBy. by rewrite negb_true_iff, String.eqb_neq. Qed.

Lemma elem_of_filter_notBy uid fs fb :
  fb ∈ List.filter (notBy uid) fs ↔ fb ∈ fs ∧ Feedback.user fb ≠ uid.
Proof. by rewrite !list_elem_of_In, filter_In, notBy_true. Qed.

(** Filtering out a reviewer who has no entry changes nothing. *)
Lemma filter_notBy_absent uid fs :
  (∀ fb, fb ∈ fs → Feedback.user fb ≠ uid) → List.filter (notBy uid) fs = fs.
Proof.
  induction fs as [|fb fs IH]; intros Hall; [done|]. simpl.
  assert (notBy uid fb = true) as ->.
  { apply notBy_true, Hall. by left. }
  f_equal. apply IH. intros fb' Hin. apply Hall. by right.
Qed.

Lemma one_per_reviewer_filter uid fs :
  one_per_reviewer fs → one_per_reviewer (List.filter (notBy uid) fs).
Proof.
  unfold one_per_reviewer.
  induction fs as [|fb fs IH]; simpl; [done|].
  rewrite NoDup_cons. intros [Hnew Hrest].
  destruct (notBy uid fb); [|by apply IH].
  simpl. apply NoDup_cons. split; [|by apply IH].
  intros Hin. apply Hnew.
  apply list_elem_of_fmap in Hin as (fb' & Heq & Hin').
  apply elem_of_filter_notBy in Hin' as [Hin' _].
  apply list_elem_of_fmap. by exists fb'.
Qed.

Lemma one_per_reviewer_cons fb fs :
  (∀ fb', fb' ∈ fs → Feedback.user fb' ≠ Feedback.user fb) →
  one_per_reviewer fs → one_per_reviewer (fb :: fs).
Proof.
  unfold one_per_reviewer. intros Hnew Hrest. simpl.
  apply NoDup_cons. split; [|done].
  intros Hin. apply list_elem_of_fmap in Hin as (fb' & Heq & Hin').
  by apply (Hnew fb').
Qed.

Lemma set_feedbacks_same d : set_feedbacks (feedbacks d) d = d.
Proof. by destruct d. Qed.

Lemma feedbacks_set_feedbacks fs d : feedbacks (set_feedbacks fs d) = fs.
Proof. done. Qed.

Lemma set_feedbacks_twice fs fs' d :
  set_feedbacks fs' (set_feedbacks fs d) = set_feedbacks fs' d.
Proof. done. Qed.

(** Closes a branch in which the handler failed although its response was
    taken to be a success. *)
Ltac not_ok :=
  solve [ simpl in *; simplify_eq;
          try match goal with H : status _ = _ |- _ => by vm_compute in H end ].

(** What a successful [add_feedback] did. *)
Lemma add_feedback_ok db id uid r t now resp db' :
  add_feedback db id uid r t now = (resp, db') → status resp = 200%Z →
  ∃ device user,
    devices db !! id = Some device
    ∧ users db !! uid = Some user
    ∧ reviewedBy uid device = false
    ∧ let entry := Feedback.mk uid (User.name user) (default 5%Z r) t now in
      resp = json (FeedbackDocs (entry :: feedbacks device))
      ∧ db' = save id (set_feedbacks (entry :: feedbacks device) device) db.
Proof.
  unfold add_feedback. intros Hrun Hok.
  destruct (devices db !! id) as [device|]; [|not_ok].
  destruct (reviewedBy uid device) eqn:Hrev; [not_ok|].
  destruct (users db !! uid) as [user|]; [|not_ok].
  destruct (String.eqb _ _); [not_ok|].
  simplify_eq. by exists device, user.
Qed.

(** What a successful [remove_feedback] did. *)
Lemma remove_feedback_ok db id uid resp db' :
  remove_feedback db id uid = (resp, db') → status resp = 200%Z →
  ∃ device,
    devices db !! id = Some device
    ∧ reviewedBy uid device = true
    ∧ let fs := List.filter (notBy uid) (feedbacks device) in
      resp = json (FeedbackDocs fs)
      ∧ db' = save id (set_feedbacks fs device) db.
Proof.
  unfold remove_feedback. intros Hrun Hok.
  destruct (devices db !! id) as [device|]; [|not_ok].
  destruct (reviewedBy uid device) eqn:Hrev; [|not_ok].
  simpl in Hrun. simplify_eq. by exists device.
Qed.

(** *** The validation of a registration *)

Lemma elem_of_instances req field value :
  value ∈ instances req field ↔
  (∃ location, location ∈ locations req ∧ location !! field = Some value)
  ∨ (value = "" ∧ ∀ location, location ∈ locations req → location !! field = None).
Proof.
  unfold instances.
  destruct (omap _ _) as [|v vs] eqn:Hvs.
  - rewrite list_elem_of_singleton. split.
    + intros ->. right. split; [done|]. intros location Hin.
      destruct (location !! field) as [v|] eqn:Hv; [|done].
      assert (v ∈ omap (λ l : gmap string string, l !! field) (locations req))
        as Hin' by (apply list_elem_of_omap; by exists location).
      rewrite Hvs in Hin'. by apply elem_of_nil in Hin'.
    + intros [(location & Hin & Hv)|[-> _]]; [|done].
      assert (value ∈ omap (λ l : gmap string string, l !! field) (locations req))
        as Hin' by (apply list_elem_of_omap; by exists location).
      rewrite Hvs in Hin'. by apply elem_of_nil in Hin'.
  - rewrite <- Hvs, list_elem_of_omap. split.
    + intros (location & Hin & Hv). left. by exists location.
    + intros [(location & Hin & Hv)|[_ Hnone]]; [by exists location|].
      assert (v ∈ omap (λ l : gmap string string, l !! field) (locations req))
        as Hin' by (rewrite Hvs; by left).
      apply list_elem_of_omap in Hin' as (location & Hin & Hv).
      by rewrite (Hnone location Hin) in Hv.
Qed.

Lemma elem_of_notEmpty msg value msg' :
  msg ∈ notEmpty value msg' ↔ value = "" ∧ msg = msg'.
Proof.
  unfold notEmpty. destruct (String.eqb_spec value "") as [Hv|Hv].
  - rewrite list_elem_of_singleton. intuition congruence.
  - rewrite elem_of_nil. intuition congruence.
Qed.

(** A chain reports its message exactly when the empty string is among the
    instances it validates. *)
Lemma elem_of_check req field msg msg' :
  msg' ∈ check req field msg ↔ msg' = msg ∧ "" ∈ instances req field.
Proof.
  unfold check. rewrite list_elem_of_In, in_flat_map. split.
  - intros (value & Hin & Hmsg).
    apply list_elem_of_In, elem_of_notEmpty in Hmsg as [-> ->].
    by rewrite list_elem_of_In.
  - intros [-> Hin]. exists "". split; [by apply list_elem_of_In|]. by left.
Qed.

Lemma check_nil req field msg : check req field msg = [] ↔ field_valid req field.
Proof.
  unfold field_valid. split.
  - intros Hnil.
    assert (∀ msg', msg' ∉ check req field msg) as Hnone.
    { intros msg'. rewrite Hnil. apply not_elem_of_nil. }
    assert ("" ∉ instances req field) as Hno.
    { intros Hin. apply (Hnone msg), elem_of_check. by split. }
    rewrite elem_of_instances in Hno. split.
    + destruct (decide (Exists (λ l : gmap string string, is_Some (l !! field))
                          (locations req))) as [Hex|Hall].
      * apply Exists_exists in Hex as (l & Hin & Hl). by exists l.
      * exfalso. apply Hno. right. split; [done|].
        intros l Hin. apply eq_None_not_Some. intros Hl.
        apply Hall, Exists_exists. by exists l.
    + intros l Hin Hl. apply Hno. left. by exists l.
  - intros [(l & Hin & [v Hv]) Hnot].
    destruct (check req field msg) as [|msg' msgs] eqn:Hcheck; [done|].
    exfalso.
    assert (msg' ∈ check req field msg) as Hmsg by (rewrite Hcheck; by left).
    apply elem_of_check in Hmsg as [_ Hempty].
    apply elem_of_instances in Hempty as [(l' & Hin' & Hl')|[_ Hnone]].
    + by apply (Hnot l').
    + by rewrite (Hnone l Hin) in Hv.
Qed.

Lemma validationResult_nil req : validationResult req = [] ↔ fields_valid req.
Proof.
  unfold validationResult, fields_valid.
  rewrite <- !check_nil. split.
  - intros H. apply app_eq_nil in H as [? H]. by apply app_eq_nil in H as [? ?].
  - by intros (-> & -> & ->).
Qed.

(** Every instance of a field that passes validation is a non-empty
    string, the one in the body among them. *)
Lemma field_valid_body req field value :
  field_valid req field → Req.body req !! field = Some value → value ≠ "".
Proof.
  intros [_ Hnot] Hbody ->. apply (Hnot (Req.body req)); [|done].
  unfold locations. by left.
Qed.

Lemma body_only_lookups m o mf :
  Req.body (body_only m o mf) !! "model" = Some m
  ∧ Req.body (body_only m o mf) !! "os" = Some o
  ∧ Req.body (body_only m o mf) !! "manufacturer" = Some mf.
Proof. unfold body_only; simpl. by repeat split; simplify_map_eq. Qed.

Lemma validationResult_body_only m o mf :
  validationResult (body_only m o mf)
  = notEmpty m "model is required" ++ notEmpty o "os is required"
    ++ notEmpty mf "manufacturer is required".
Proof.
  destruct (body_only_lookups m o mf) as (Hm & Ho & Hmf).
  unfold validationResult, check, instances, locations.
  cbn [omap list_omap]. rewrite Hm, Ho, Hmf. simpl.
  by rewrite !lookup_empty, !app_nil_r.
Qed.

Lemma validationResult_body_only_nil m o mf :
  validationResult (body_only m o mf) = [] ↔ m ≠ "" ∧ o ≠ "" ∧ mf ≠ "".
Proof.
  rewrite validationResult_body_only. unfold notEmpty.
  destruct (String.eqb_spec m ""), (String.eqb_spec o ""),
    (String.eqb_spec mf ""); simpl; split; try done; intros (? & ? & ?); done.
Qed.

(** The handler along its tests: either it stores the device built from
    the body, having passed every test, or it answers with a failure and
    leaves the state. *)
Lemma post_devices_cases srv db oid u req :
  (∃ m o mf,
     post_devices srv db oid u req
     = (json (DeviceDoc oid (newDevice srv m o mf u)),
        save oid (newDevice srv m o mf u) db)
     ∧ Req.body req !! "model" = Some m ∧ Req.body req !! "os" = Some o
     ∧ Req.body req !! "manufacturer" = Some mf
     ∧ m ≠ "" ∧ o ≠ "" ∧ mf ≠ ""
     ∧ fields_valid req
     ∧ size (devices db) < 10
     ∧ is_Some (users db !! u) ∧ devices db !! oid = None)
  ∨ (post_devices srv db oid u req).2 = db
    ∧ status (post_devices srv db oid u req).1 ≠ 200%Z.
Proof.
  unfold post_devices.
  destruct (validationResult req) as [|e es] eqn:Hval; cbn [negb isEmpty];
    [|by right].
  apply validationResult_nil in Hval. pose proof Hval as (Hvm & Hvo & Hvmf).
  destruct (10 <=? _) eqn:Hfull; [by right|]. apply Nat.leb_gt in Hfull.
  destruct (users db !! u) as [user|] eqn:Huser; [|by right].
  destruct (Req.body req !! "model") as [m|] eqn:Hm; [|by right].
  destruct (Req.body req !! "os") as [o|] eqn:Ho; [|by right].
  destruct (Req.body req !! "manufacturer") as [mf|] eqn:Hmf; [|by right].
  pose proof (field_valid_body req "model" m Hvm Hm) as Hm'.
  pose proof (field_valid_body req "os" o Hvo Ho) as Ho'.
  pose proof (field_valid_body req "manufacturer" mf Hvmf Hmf) as Hmf'.
  unfold required.
  apply String.eqb_neq in Hm', Ho', Hmf'. rewrite Hm', Ho', Hmf'.
  apply String.eqb_neq in Hm', Ho', Hmf'. simpl.
  destruct (devices db !! oid) eqn:Hoid; [by right|].
  left. exists m, o, mf. by split_and!.
Qed.

(** On a request that carries the fields in its body alone, the handler
    is the sequence of tests on the three strings. *)
Lemma register_unfold srv db oid u m o mf :
  register srv db oid u m o mf
  = if negb (isEmpty (validationResult (body_only m o mf)))
    then (ValidationError (validationResult (body_only m o mf)), db)
    else if (10 <=? size (devices db))%nat then (CapacityExceeded, db)
    else match users db !! u with
         | None => (ServerError, db)
         | Some _ =>
             match devices db !! oid with
             | Some _ => (ServerError, db)
             | None => (json (DeviceDoc oid (newDevice srv m o mf u)),
                        save oid (newDevice srv m o mf u) db)
             end
         end.
Proof.
  unfold register, post_devices.
  destruct (body_only_lookups m o mf) as (Hm & Ho & Hmf).
  destruct (validationResult (body_only m o mf)) as [|e es] eqn:Hval;
    cbn [negb isEmpty]; [|done].
  apply validationResult_body_only_nil in Hval as (Hm' & Ho' & Hmf').
  destruct (10 <=? _); [done|].
  destruct (users db !! u); [|done].
  rewrite Hm, Ho, Hmf. unfold required.
  apply String.eqb_neq in Hm', Ho', Hmf'. by rewrite Hm', Ho', Hmf'.
Qed.

(** A request that is served is served as the request that carries its
    body's three fields alone. *)
Lemma post_devices_served srv db oid u req :
  status (post_devices srv db oid u req).1 = 200%Z →
  ∃ m o mf,
    Req.body req !! "model" = Some m ∧ Req.body req !! "os" = Some o
    ∧ Req.body req !! "manufacturer" = Some mf
    ∧ post_devices srv db oid u req = register srv db oid u m o mf.
Proof.
  intros Hok.
  destruct (post_devices_cases srv db oid u req)
    as [(m & o & mf & Hrun & Hm & Ho & Hmf & Hm' & Ho' & Hmf' & _ & Hroom
         & [user Huser] & Hfresh)|[_ Hfail]]; [|done].
  exists m, o, mf. split_and!; try done.
  rewrite Hrun, register_unfold.
  assert (validationResult (body_only m o mf) = []) as ->
    by by apply validationResult_body_only_nil.
  cbn [negb isEmpty]. apply Nat.leb_gt in Hroom.
  by rewrite Hroom, Huser, Hfresh.
Qed.

(** A request whose fields are valid, from a user whose document exists,
    with an unused [_id] for the new document, is served while there is
    room. *)
Lemma post_devices_accepts srv db oid u req :
  fields_valid req →
  in_body req "model" → in_body req "os" → in_body req "manufacturer" →
  size (devices db) < 10 → is_Some (users db !! u) →
  devices db !! oid = None →
  ∃ m o mf,
    Req.body req !! "model" = Some m ∧ Req.body req !! "os" = Some o
    ∧ Req.body req !! "manufacturer" = Some mf
    ∧ post_devices srv db oid u req
      = (json (DeviceDoc oid (newDevice srv m o mf u)),
         save oid (newDevice srv m o mf u) db).
Proof.
  intros Hvalid [m Hm] [o Ho] [mf Hmf] Hroom [user Huser] Hfresh.
  exists m, o, mf. split_and!; try done.
  destruct Hvalid as (Hvm & Hvo & Hvmf).
  pose proof (field_valid_body req "model" m Hvm Hm) as Hm'.
  pose proof (field_valid_body req "os" o Hvo Ho) as Ho'.
  pose proof (field_valid_body req "manufacturer" mf Hvmf Hmf) as Hmf'.
  unfold post_devices.
  assert (validationResult req = []) as -> by by apply validationResult_nil.
  cbn [negb isEmpty]. apply Nat.leb_gt in Hroom.
  rewrite Hroom, Huser, Hm, Ho, Hmf, Hfresh. unfold required.
  apply String.eqb_neq in Hm', Ho', Hmf'. by rewrite Hm', Ho', Hmf'.
Qed.

(** *** Invariants of the writes *)

Section Invariants.

Context (srv : Server).

Lemma step_effect db op : effect srv db op (step srv db op).2.
Proof.
  destruct op as [oid u req| |id u|id u r t now|id u|id u entry commit|id u now];
    simpl.
  - destruct (post_devices_cases srv db oid u req)
      as [(m & o & mf & -> & _ & _ & _ & _ & _ & _ & _ & Hroom & _ & Hfresh)|[-> _]];
      simpl; by constructor.
  - constructor.
  - unfold delete_device.
    destruct (devices db !! id) as [device|] eqn:Hid; [|constructor].
    destruct (negb _); [constructor|]. by econstructor.
  - unfold add_feedback.
    destruct (devices db !! id) as [device|] eqn:Hid; [|constructor].
    destruct (reviewedBy u device) eqn:Hrev; [constructor|].
    destruct (users db !! u) as [user|]; [|constructor].
    destruct (String.eqb _ _); [constructor|]. by constructor.
  - unfold remove_feedback.
    destruct (devices db !! id) as [device|] eqn:Hid; [|constructor].
    destruct (negb _); [constructor|]. by constructor.
  - unfold checkout.
    destruct (_ || _); [constructor|].
    destruct (devices db !! id) as [device|] eqn:Hid; [|constructor].
    destruct (users db !! u); [|constructor].
    destruct (findOne (heldBy u) db) eqn:Hfind; [constructor|].
    destruct (isCheckedOut device) eqn:Hout; [constructor|].
    apply findOne_heldBy_None in Hfind. by constructor.
  - unfold checkin.
    destruct (devices db !! id) as [device|] eqn:Hid; [|constructor].
    destruct (negb _); [constructor|].
    destruct (users db !! u); [|constructor].
    destruct (negb _); [constructor|]. by constructor.
Qed.

(** An invariant of the device collection that the empty collection has
    and every write keeps holds in every reachable state. *)
Lemma reachable_ind_devices (P : gmap string Device → Prop) :
  P ∅ →
  (∀ db op db', P (devices db) → effect srv db op db' → P (devices db')) →
  ∀ db, reachable srv db → P (devices db).
Proof.
  intros Hinit Hstep db Hreach.
  induction Hreach as [us|db op Hreach IH|db us Hreach IH]; simpl; [done| |done].
  eapply Hstep; [exact IH|]. apply step_effect.
Qed.

Lemma run_reachable ops : ∀ db,
  reachable srv db → reachable srv (run srv db ops).2.
Proof.
  induction ops as [|op ops IH]; intros db Hreach; [done|].
  simpl. pose proof (reach_step srv db op Hreach) as Hstep.
  destruct (step srv db op) as [r db1].
  specialize (IH db1 Hstep).
  by destruct (run srv db1 ops) as [rs db2].
Qed.

Lemma exclusive_insert (m : gmap string Device) id d' :
  exclusive m →
  (∀ uid k d, holding uid d' → k ≠ id → m !! k = Some d → ¬ holding uid d) →
  exclusive (<[id := d']> m).
Proof.
  intros Hex Hnew uid k1 k2 d1 d2 H1 H2 Hh1 Hh2.
  destruct (decide (k1 = id)) as [->|Hk1], (decide (k2 = id)) as [->|Hk2];
    [done| | |].
  - rewrite lookup_insert_eq in H1. rewrite lookup_insert_ne in H2 by done.
    simplify_eq. by destruct (Hnew uid k2 d2).
  - rewrite lookup_insert_eq in H2. rewrite lookup_insert_ne in H1 by done.
    simplify_eq. by destruct (Hnew uid k1 d1).
  - rewrite lookup_insert_ne in H1, H2 by done. by eapply Hex.
Qed.

Lemma exclusive_delete (m : gmap string Device) id :
  exclusive m → exclusive (delete id m).
Proof.
  intros Hex uid k1 k2 d1 d2 H1 H2.
  apply lookup_delete_Some in H1 as [_ H1].
  apply lookup_delete_Some in H2 as [_ H2]. by eapply Hex.
Qed.

(** A rewritten document that is held only by who held it before keeps
    exclusivity. *)
Lemma exclusive_insert_same (m : gmap string Device) id d d' :
  exclusive m → m !! id = Some d →
  (∀ uid, holding uid d' → holding uid d) →
  exclusive (<[id := d']> m).
Proof.
  intros Hex Hid Hsame. apply exclusive_insert; [done|].
  intros uid k dk Hh Hk Hlook Hhk. apply Hk.
  eapply Hex; eauto.
Qed.

Lemma effect_exclusive db op db' :
  exclusive (devices db) → effect srv db op db' → exclusive (devices db').
Proof.
  intros Hex Heff.
  destruct Heff as [op|oid u m o mf Hfresh Hroom|id u device Hid
    |id u r t now device entry Hid Hrev Huser|id u device Hid
    |id u entry commit device Hid Hfree Hnone|id u now device Hid]; simpl.
  - done.
  - apply exclusive_insert; [done|]. by intros uid k d [? _].
  - by apply exclusive_delete.
  - by apply exclusive_insert_same with device.
  - by apply exclusive_insert_same with device.
  - apply exclusive_insert; [done|].
    intros uid k d [_ Hby] Hk Hlook Hh. simpl in Hby. simplify_eq.
    apply Hnone. by exists k, d.
  - apply exclusive_insert; [done|]. by intros uid k d [? _].
Qed.

Lemma effect_capacity db op db' :
  size (devices db) ≤ 10 → effect srv db op db' → size (devices db') ≤ 10.
Proof.
  intros Hcap Heff.
  destruct Heff as [op|oid u m o mf Hfresh Hroom|id u device Hid
    |id u r t now device entry Hid Hrev Huser|id u device Hid
    |id u entry commit device Hid Hfree Hnone|id u now device Hid]; simpl;
    try (rewrite map_size_insert_Some by (by rewrite Hid); done).
  - done.
  - rewrite map_size_insert_None by done. lia.
  - rewrite map_size_delete_Some by (by rewrite Hid). lia.
Qed.

Lemma reachable_capacity db : reachable srv db → size (devices db) ≤ 10.
Proof.
  apply (reachable_ind_devices (λ m, size m ≤ 10)).
  - rewrite map_size_empty. lia.
  - intros db0 op db'. apply effect_capacity.
Qed.

Lemma effect_ledgers db op db' :
  ledgers_ok (devices db) → effect srv db op db' → ledgers_ok (devices db').
Proof.
  unfold ledgers_ok. intros Hok Heff.
  destruct Heff as [op|oid u m o mf Hfresh Hroom|id u device Hid
    |id u r t now device entry Hid Hrev Huser|id u device Hid
    |id u entry commit device Hid Hfree Hnone|id u now device Hid]; simpl;
    intros k d Hk;
    try (destruct (decide (k = id)) as [->|Hne];
         [rewrite lookup_insert_eq in Hk|rewrite lookup_insert_ne in Hk by done];
         [simplify_eq; simpl|by eapply Hok]).
  - by eapply Hok.
  - destruct (decide (k = oid)) as [->|Hne].
    + rewrite lookup_insert_eq in Hk. simplify_eq. simpl. apply NoDup_nil_2.
    + rewrite lookup_insert_ne in Hk by done. by eapply Hok.
  - apply lookup_delete_Some in Hk as [_ Hk]. by eapply Hok.
  - apply one_per_reviewer_cons; [|by eapply Hok].
    intros fb Hin. by apply reviewedBy_false with device.
  - apply one_per_reviewer_filter. by eapply Hok.
  - by eapply Hok.
  - by eapply Hok.
Qed.

Lemma reachable_ledgers db : reachable srv db → ledgers_ok (devices db).
Proof.
  apply (reachable_ind_devices ledgers_ok).
  - intros id d Hid. by rewrite lookup_empty in Hid.
  - intros db0 op db'. apply effect_ledgers.
Qed.

End Invariants.

(** *** Exclusivity *)

(** C3. Every request keeps the registry such that each user is the holder
    (isCheckedOut with lastCheckedOutBy that user) of at most one device;
    so in every state the router reaches by serving Register, Remove,
    CheckOut, CheckIn, AddFeedback and RemoveFeedback requests (and List)
    one after the other from an empty registry, for every user at most one
    device is checked out with that user as its last holder. *)
Theorem exclusivity_invariant srv :
  (∀ db op, exclusive (devices db) → exclusive (devices (step srv db op).2))
  ∧ (∀ db,
       reachable srv db →
       ∀ uid k1 k2 d1 d2,
         devices db !! k1 = Some d1 → devices db !! k2 = Some d2 →
         isCheckedOut d1 = true ∧ lastCheckedOutBy d1 = Some uid →
         isCheckedOut d2 = true ∧ lastCheckedOutBy d2 = Some uid →
         k1 = k2).
Proof.
  split.
  - intros db op Hex. apply (effect_exclusive srv db op); [exact Hex|].
    apply step_effect.
  - intros db Hreach.
    apply (reachable_ind_devices srv exclusive); [| |done].
    + intros uid k1 k2 d1 d2 H1. by rewrite lookup_empty in H1.
    + intros db0 op db' Hex Heff. by eapply effect_exclusive.
Qed.

(** After the sample run alice holds d1 and nothing else. *)
Lemma exclusivity_invariant_witness :
  reachable sample_srv after_sample_run
  ∧ devices after_sample_run !! "d1"
    = Some (set_checkedOut "alice" three (newDevice sample_srv "Pixel 4" "Android" "Google" "alice"))
  ∧ "d1" = "d1".
Proof.
  assert (reachable sample_srv after_sample_run) as Hreach.
  { apply run_reachable. constructor. }
  assert (devices after_sample_run !! "d1"
          = Some (set_checkedOut "alice" three
                    (newDevice sample_srv "Pixel 4" "Android" "Google" "alice")))
    as Hd1.
  { vm_compute. reflexivity. }
  split; [exact Hreach|]. split; [exact Hd1|].
  apply (proj2 (exclusivity_invariant sample_srv) after_sample_run Hreach "alice"
           "d1" "d1" _ _ Hd1 Hd1); by split.
Defined.

(** *** Registration *)

(** What a successful [register] did. *)
Lemma register_ok srv db oid uid m o mf resp db' :
  register srv db oid uid m o mf = (resp, db') → status resp = 200%Z →
  validationResult (body_only m o mf) = []
  ∧ size (devices db) < 10
  ∧ is_Some (users db !! uid)
  ∧ devices db !! oid = None
  ∧ resp = json (DeviceDoc oid (newDevice srv m o mf uid))
  ∧ db' = save oid (newDevice srv m o mf uid) db.
Proof.
  rewrite register_unfold. intros Hrun Hok.
  destruct (validationResult (body_only m o mf)) as [|e es]; [|not_ok].
  cbn [negb isEmpty] in Hrun.
  destruct (10 <=? _) eqn:Hfull; [not_ok|]. apply Nat.leb_gt in Hfull.
  destruct (users db !! uid) as [user|]; [|not_ok].
  destruct (devices db !! oid) eqn:Hoid; [not_ok|].
  by simplify_eq.
Qed.

(** A request with the three fields filled in, from a user whose document
    exists, with an unused [_id] for the new document, is accepted while
    there is room. *)
Lemma register_accepts srv db oid uid m o mf :
  m ≠ "" → o ≠ "" → mf ≠ "" →
  size (devices db) < 10 → is_Some (users db !! uid) →
  devices db !! oid = None →
  register srv db oid uid m o mf
  = (json (DeviceDoc oid (newDevice srv m o mf uid)),
     save oid (newDevice srv m o mf uid) db).
Proof.
  intros Hm Ho Hmf Hroom [user Huser] Hfresh. rewrite register_unfold.
  assert (validationResult (body_only m o mf) = []) as -> by by apply validationResult_body_only_nil.
  cbn [negb isEmpty]. apply Nat.leb_gt in Hroom.
  by rewrite Hroom, Huser, Hfresh.
Qed.

(** C6 (what the code does). A successful Register stores a new device
    under an id that no device had, with isCheckedOut false and the given
    model, os, manufacturer and registering user, and answers with it. Its
    registeredDate is the time at which the schema was loaded, the same for
    every device the process registers: it is not the time [now] of the
    call, whenever the two differ. *)
Theorem register_stores_device srv db oid uid m o mf resp db' :
  register srv db oid uid m o mf = (resp, db') →
  status resp = 200%Z →
  ∃ device,
    resp = json (DeviceDoc oid device)
    ∧ devices db !! oid = None
    ∧ devices db' !! oid = Some device
    ∧ (∀ k, k ≠ oid → devices db' !! k = devices db !! k)
    ∧ isCheckedOut device = false
    ∧ model device = m ∧ os device = o ∧ manufacturer device = mf
    ∧ registeredBy device = uid
    ∧ registeredDate device = loadTime srv
    ∧ (∀ now : Z, now ≠ loadTime srv → registeredDate device ≠ now).
Proof.
  intros Hrun Hok.
  destruct (register_ok _ _ _ _ _ _ _ _ _ Hrun Hok)
    as (_ & _ & _ & Hfresh & -> & ->).
  eexists. split; [reflexivity|]. split; [done|].
  split; [apply lookup_insert_eq|].
  split; [by intros k Hk; apply lookup_insert_ne|].
  simpl. repeat split; congruence.
Qed.

(** The first registration of the sample run, served at three: the device
    carries the load time of the schema (noon), not the time of the call. *)
Lemma register_stores_device_witness :
  ∃ device,
    (register sample_srv (init sample_users) "d1" "alice" "Pixel 4" "Android" "Google").1
    = json (DeviceDoc "d1" device)
    ∧ isCheckedOut device = false
    ∧ registeredDate device = noon
    ∧ registeredDate device ≠ three.
Proof.
  destruct (register_stores_device sample_srv (init sample_users) "d1" "alice"
              "Pixel 4" "Android" "Google"
              (register sample_srv (init sample_users) "d1" "alice"
                 "Pixel 4" "Android" "Google").1
              (register sample_srv (init sample_users) "d1" "alice"
                 "Pixel 4" "Android" "Google").2)
    as (device & Hresp & _ & _ & _ & Hfree & _ & _ & _ & _ & Hdate & Hnot).
  - vm_compute. reflexivity.
  - reflexivity.
  - exists device. split; [exact Hresp|]. split; [exact Hfree|].
    split; [exact Hdate|]. apply Hnot. discriminate.
Defined.

Lemma run_registrations srv rs : ∀ db,
  Forall (valid_registration (users db)) rs →
  NoDup (reg_oid <$> rs) →
  (∀ r, r ∈ rs → devices db !! reg_oid r = None) →
  size (devices db) + length rs ≤ 10 →
  Forall (λ resp, status resp = 200%Z) (run srv db (register_op <$> rs)).1
  ∧ length (run srv db (register_op <$> rs)).1 = length rs
  ∧ size (devices (run srv db (register_op <$> rs)).2)
    = size (devices db) + length rs
  ∧ users (run srv db (register_op <$> rs)).2 = users db.
Proof.
  induction rs as [|r rs IH]; intros db Hvalid Hnodup Hfresh Hroom.
  - simpl. repeat split; [constructor|lia].
  - apply Forall_cons in Hvalid as [(Hv & Hm & Ho & Hmf & Huser) Hvalid].
    simpl in Hnodup. apply NoDup_cons in Hnodup as [Hnew Hnodup].
    simpl in Hroom. cbn [fmap list_fmap run step register_op].
    destruct (post_devices_accepts srv db (reg_oid r) (reg_user r) (reg_req r))
      as (m & o & mf & _ & _ & _ & ->);
      [done|done|done|done|lia|done|apply Hfresh; by left|].
    set (db1 := save _ _ db).
    destruct (IH db1) as (Hall & Hlen & Hsize & Husers).
    + done.
    + done.
    + intros r' Hr'. unfold db1, save; simpl.
      rewrite lookup_insert_ne.
      * apply Hfresh. by right.
      * intros Heq. apply Hnew. apply list_elem_of_fmap. by exists r'.
    + unfold db1, save; simpl.
      rewrite map_size_insert_None by (apply Hfresh; by left). lia.
    + destruct (run srv db1 (register_op <$> rs)) as [resps db2] eqn:Hrun.
      simpl in *. repeat split.
      * by constructor.
      * lia.
      * rewrite Hsize. unfold db1, save; simpl.
        rewrite map_size_insert_None by (apply Hfresh; by left). lia.
      * done.
Qed.

Example sample_run_responses :
  status <$> (run sample_srv (init sample_users) sample_run).1
  = [200; 200; 200; 405; 200]%Z.
Proof. vm_compute. reflexivity. Qed.

Example full_db_size : size (devices full_db) = 10.
Proof. vm_compute. reflexivity. Qed.

(** C4, as the code has it. The validation of the request comes first:
    Register answers CapacityExceeded exactly when model, os and
    manufacturer pass validation (each is carried by some part of the
    request and is empty in none) and the registry holds 10 devices or
    more; a request that fails validation is refused with ValidationError
    whatever the count. From an empty registry, ten registrations with
    valid fields, which the body carries, succeed, and a registration with
    valid fields after them fails with CapacityExceeded. No sequence of
    requests makes the registry hold more than 10 devices. As everywhere,
    the caller of a request that is served is an authenticated user, whose
    document exists, and the id generated for a new document is new. *)
Theorem register_capacity :
  (∀ srv db oid uid req,
     ((post_devices srv db oid uid req).1 = CapacityExceeded
      ↔ fields_valid req ∧ 10 ≤ size (devices db))
     ∧ (¬ fields_valid req →
        ∃ errors, errors ≠ []
                  ∧ post_devices srv db oid uid req = (ValidationError errors, db)))
  ∧ (∀ srv us rs,
       length rs = 10 →
       Forall (valid_registration us) rs →
       NoDup (reg_oid <$> rs) →
       let out := run srv (init us) (register_op <$> rs) in
       Forall (λ resp, status resp = 200%Z) out.1
       ∧ length out.1 = 10
       ∧ size (devices out.2) = 10
       ∧ ∀ oid uid req,
           fields_valid req →
           fails_with CapacityExceeded out.2 (post_devices srv out.2 oid uid req))
  ∧ (∀ srv db, reachable srv db → size (devices db) ≤ 10).
Proof.
  assert (∀ srv db oid uid req,
            fields_valid req → 10 ≤ size (devices db) →
            post_devices srv db oid uid req = (CapacityExceeded, db)) as Hfull.
  { intros srv db oid uid req Hvalid Hsize. unfold post_devices.
    assert (validationResult req = []) as -> by by apply validationResult_nil.
    cbn [negb isEmpty]. apply Nat.leb_le in Hsize. by rewrite Hsize. }
  split; [|split].
  - intros srv db oid uid req. split; [split|].
    + unfold post_devices.
      destruct (validationResult req) as [|e es] eqn:Hval; cbn [negb isEmpty];
        [|by intros ?].
      apply validationResult_nil in Hval.
      destruct (10 <=? _) eqn:Hsize; [intros _; split; [done|by apply Nat.leb_le]|].
      destruct (users db !! uid); [|by intros ?].
      repeat case_match; by intros ?.
    + intros [Hvalid Hsize]. by rewrite Hfull.
    + intros Hinvalid. unfold post_devices.
      destruct (validationResult req) as [|e es] eqn:Hval; cbn [negb isEmpty].
      * by apply validationResult_nil in Hval.
      * by exists (e :: es).
  - intros srv us rs Hlen Hvalid Hnodup out.
    destruct (run_registrations srv rs (init us)) as (Hall & Hlen' & Hsize & _).
    + done.
    + done.
    + intros r _. apply lookup_empty.
    + simpl. rewrite map_size_empty. lia.
    + simpl in Hsize. rewrite map_size_empty in Hsize.
      fold out in Hall, Hlen', Hsize.
      repeat split; [done|lia|lia|].
      intros oid uid req Hv. apply Hfull; [done|lia].
  - apply reachable_capacity.
Qed.

(** With ten devices registered and an empty model in the body, Register
    answers ValidationError: the registry is at its limit and the answer
    is not CapacityExceeded. *)
Lemma register_full_invalid_counterexample :
  (register sample_srv full_db "d11" "alice" "" "Android" "Google").1
  = ValidationError ["model is required"]
  ∧ ¬ ((register sample_srv full_db "d11" "alice" "" "Android" "Google").1
       = CapacityExceeded
       ↔ 10 ≤ size (devices full_db)).
Proof.
  split; [reflexivity|].
  intros [_ Hfull].
  assert (10 ≤ size (devices full_db)) as Hsize.
  { rewrite full_db_size. lia. }
  specialize (Hfull Hsize). discriminate Hfull.
Qed.

(** The ten sample registrations succeed and an eleventh is refused. *)
Lemma register_capacity_witness :
  Forall (λ resp, status resp = 200%Z)
    (run sample_srv (init sample_users) (register_op <$> ten_registrations)).1
  ∧ size (devices full_db) = 10
  ∧ fails_with CapacityExceeded full_db
      (register sample_srv full_db "d11" "alice" "Pixel 4" "Android" "Google").
Proof.
  destruct register_capacity as (_ & Hten & _).
  destruct (Hten sample_srv sample_users ten_registrations)
    as (Hall & _ & Hsize & Heleventh).
  - reflexivity.
  - unfold ten_registrations, valid_registration.
    apply Forall_fmap, Forall_forall. intros oid _. simpl.
    split_and!.
    + apply validationResult_nil. reflexivity.
    + exists "Pixel 4". reflexivity.
    + exists "Android". reflexivity.
    + exists "Google". reflexivity.
    + exists (User.mk "Alice"). vm_compute. reflexivity.
  - apply (bool_decide_unpack _). vm_compute. exact I.
  - split; [exact Hall|]. split; [exact Hsize|].
    apply (Heleventh "d11" "alice" (body_only "Pixel 4" "Android" "Google")).
    apply validationResult_nil. reflexivity.
Defined.

(** *** One entry per reviewer *)

(** C7. A device has at most one feedback entry per reviewer at any time:
    adding feedback for a reviewer who already has an entry on the device
    answers DuplicateReview and changes nothing; every request keeps the
    ledgers free of duplicates, so every reachable state has them so. *)
Theorem one_entry_per_reviewer :
  (∀ db id uid r t now device,
     devices db !! id = Some device →
     (∃ fb, fb ∈ feedbacks device ∧ Feedback.user fb = uid) →
     fails_with DuplicateReview db (add_feedback db id uid r t now))
  ∧ (∀ srv db op,
       (∀ id d, devices db !! id = Some d → NoDup (Feedback.user <$> feedbacks d)) →
       ∀ id d, devices (step srv db op).2 !! id = Some d →
               NoDup (Feedback.user <$> feedbacks d))
  ∧ (∀ srv db,
       reachable srv db →
       ∀ id d, devices db !! id = Some d → NoDup (Feedback.user <$> feedbacks d)).
Proof.
  split; [|split].
  - intros db id uid r t now device Hid Hdup.
    apply reviewedBy_true in Hdup.
    unfold fails_with, add_feedback. by rewrite Hid, Hdup.
  - intros srv db op Hok.
    apply (effect_ledgers srv db op); [exact Hok|apply step_effect].
  - intros srv db Hreach. by apply (reachable_ledgers srv).
Qed.

(** Bob has reviewed the phone: a second review of his is refused. *)
Lemma one_entry_per_reviewer_witness :
  fails_with DuplicateReview sample_db
    (add_feedback sample_db "d1" "bob" (Some 1%Z) None three)
  ∧ NoDup (Feedback.user <$> feedbacks phone).
Proof.
  destruct one_entry_per_reviewer as (Hdup & Hstep & _).
  split.
  - apply Hdup with phone.
    + vm_compute. reflexivity.
    + eexists. split; [by left|reflexivity].
  - apply (Hstep sample_srv sample_db List) with "d1".
    + intros id d Hid.
      assert (feedbacks d = feedbacks phone ∨ feedbacks d = []) as [-> | ->].
      { unfold sample_db in Hid. simpl in Hid.
        destruct (decide (id = "d1")) as [->|Hne1].
        - rewrite lookup_insert_eq in Hid. left. congruence.
        - rewrite lookup_insert_ne in Hid by done.
          destruct (decide (id = "d2")) as [->|Hne2].
          + rewrite lookup_insert_eq in Hid. right. by simplify_eq.
          + rewrite lookup_insert_ne, lookup_empty in Hid by done. done. }
      * apply (bool_decide_unpack _). vm_compute. exact I.
      * constructor.
    + vm_compute. reflexivity.
Defined.

Lemma save_save_back id d d1 db :
  devices db !! id = Some d → save id d (save id d1 db) = db.
Proof.
  intros Hid. destruct db as [ds us]. unfold save; simpl in *.
  by rewrite insert_insert_eq, insert_id.
Qed.

(** C8. On a device of the registry, for a reviewer without an entry on it,
    a successful AddFeedback puts the new entry at the front of the ledger,
    before the entries that were there, and a RemoveFeedback by the same
    reviewer right after it answers with the ledger as it was before the
    addition (same entries, same order) and leaves the collections exactly
    as they were before it. *)
Theorem feedback_round_trip db id uid r t now device resp db1 :
  devices db !! id = Some device →
  (∀ fb, fb ∈ feedbacks device → Feedback.user fb ≠ uid) →
  add_feedback db id uid r t now = (resp, db1) →
  status resp = 200%Z →
  (∃ entry device1,
     Feedback.user entry = uid
     ∧ resp = json (FeedbackDocs (entry :: feedbacks device))
     ∧ devices db1 !! id = Some device1
     ∧ feedbacks device1 = entry :: feedbacks device)
  ∧ remove_feedback db1 id uid = (json (FeedbackDocs (feedbacks device)), db).
Proof.
  intros Hid Hnone Hadd Hok.
  destruct (add_feedback_ok _ _ _ _ _ _ _ _ Hadd Hok)
    as (device' & user & Hid' & Huser & Hrev & Hresp & Hdb1).
  simplify_eq. split.
  - eexists _, _. split; [|split; [reflexivity|split]].
    + reflexivity.
    + apply lookup_insert_eq.
    + reflexivity.
  - set (entry := Feedback.mk uid _ _ _ _).
    unfold remove_feedback. simpl devices. rewrite lookup_insert_eq.
    assert (reviewedBy uid (set_feedbacks (entry :: feedbacks device) device) = true)
      as ->.
    { apply reviewedBy_true. exists entry. split; [by left|done]. }
    simpl negb. cbv iota.
    rewrite feedbacks_set_feedbacks, set_feedbacks_twice.
    fold (notBy uid). simpl List.filter.
    assert (notBy uid entry = false) as ->.
    { unfold notBy, entry; simpl. by rewrite String.eqb_refl. }
    rewrite filter_notBy_absent by done.
    rewrite set_feedbacks_same. f_equal. by apply save_save_back.
Qed.

(** Alice reviews the phone and withdraws the review: the registry is as
    it was. *)
Lemma feedback_round_trip_witness :
  remove_feedback
    (add_feedback sample_db "d1" "alice" (Some 3%Z) (Some "Slow") three).2
    "d1" "alice"
  = (json (FeedbackDocs (feedbacks phone)), sample_db).
Proof.
  apply (feedback_round_trip sample_db "d1" "alice" (Some 3%Z) (Some "Slow")
           three phone
           (add_feedback sample_db "d1" "alice" (Some 3%Z) (Some "Slow") three).1).
  - vm_compute. reflexivity.
  - apply reviewedBy_false. reflexivity.
  - vm_compute. reflexivity.
  - reflexivity.
Defined.

(** C10. After a successful RemoveFeedback the ledger of the device has no
    entry of that reviewer, however many it had before; the entries of the
    other reviewers are those it had, in their order, and the answer is
    that ledger. *)
Theorem remove_feedback_removes_all db id uid resp db' :
  remove_feedback db id uid = (resp, db') →
  status resp = 200%Z →
  ∃ device device',
    devices db !! id = Some device
    ∧ devices db' !! id = Some device'
    ∧ resp = json (FeedbackDocs (feedbacks device'))
    ∧ (∀ fb, fb ∈ feedbacks device' → Feedback.user fb ≠ uid)
    ∧ feedbacks device'
      = List.filter (λ fb, bool_decide (Feedback.user fb ≠ uid)) (feedbacks device).
Proof.
  intros Hrun Hok.
  destruct (remove_feedback_ok _ _ _ _ _ Hrun Hok)
    as (device & Hid & Hrev & Hresp & Hdb').
  simplify_eq. eexists device, _.
  split; [done|]. split; [apply lookup_insert_eq|].
  split; [done|]. simpl. split.
  - intros fb Hin. by apply elem_of_filter_notBy in Hin as [_ ?].
  - apply filter_ext. intros fb. unfold notBy.
    destruct (String.eqb_spec (Feedback.user fb) uid) as [Heq|Hne]; simpl.
    + by rewrite bool_decide_eq_false_2 by (by intros ?).
    + by rewrite bool_decide_eq_true_2.
Qed.

(** Both entries of bob leave the doubled ledger; alice's stays. *)
Lemma remove_feedback_removes_all_witness :
  ∃ device device',
    devices doubled_db !! "d1" = Some device
    ∧ devices (remove_feedback doubled_db "d1" "bob").2 !! "d1" = Some device'
    ∧ (remove_feedback doubled_db "d1" "bob").1
      = json (FeedbackDocs (feedbacks device'))
    ∧ (∀ fb, fb ∈ feedbacks device' → Feedback.user fb ≠ "bob")
    ∧ feedbacks device'
      = List.filter (λ fb, bool_decide (Feedback.user fb ≠ "bob")) (feedbacks device).
Proof.
  apply (remove_feedback_removes_all doubled_db "d1" "bob").
  - vm_compute. reflexivity.
  - reflexivity.
Defined.

Example doubled_ledger_after_removal :
  (remove_feedback doubled_db "d1" "bob").1
  = json (FeedbackDocs [Feedback.mk "alice" "Alice" 5%Z None 1600000200000%Z]).
Proof. vm_compute. reflexivity. Qed.

(** C5 (what the code does). For a device id that is not in the registry,
    both feedback handlers answer with the 500 of their catch block, not
    with the 404 of NotFound: neither tests the result of findById, as the
    removal, check-out and check-in handlers do. *)
Theorem feedback_on_absent_device db id uid r t now :
  devices db !! id = None →
  add_feedback db id uid r t now = (ServerError, db)
  ∧ remove_feedback db id uid = (ServerError, db)
  ∧ ServerError ≠ NotFound.
Proof.
  intros Hid. unfold add_feedback, remove_feedback. rewrite Hid.
  by repeat split.
Qed.

(** Feedback on a device that does not exist: a 500 from both handlers. *)
Lemma feedback_on_absent_device_witness :
  add_feedback sample_db "d9" "alice" (Some 3%Z) (Some "Slow") three
  = (ServerError, sample_db)
  ∧ remove_feedback sample_db "d9" "alice" = (ServerError, sample_db)
  ∧ ServerError ≠ NotFound.
Proof.
  apply (feedback_on_absent_device sample_db "d9" "alice").
  vm_compute. reflexivity.
Defined.

(** ** Further properties of the handlers *)

(** *** What a request changes *)

(** Splits a handler along its tests. *)
Ltac by_cases :=
  repeat (case_match; simplify_eq; simpl in *; try done).

(** X1. No handler writes the user collection, and a request that is not
    answered with 200 leaves the device collection as it was. *)
Theorem failed_request_changes_nothing srv db op :
  users (step srv db op).2 = users db
  ∧ (status (step srv db op).1 ≠ 200%Z → (step srv db op).2 = db).
Proof.
  destruct op as [oid u req| |id u|id u r t now|id u|id u entry commit|id u now];
    simpl.
  - destruct (post_devices_cases srv db oid u req)
      as [(m & o & mf & -> & _)|[-> _]]; by split.
  - done.
  - unfold delete_device. by_cases.
  - unfold add_feedback. by_cases.
  - unfold remove_feedback. by_cases.
  - unfold checkout. by_cases.
  - unfold checkin. by_cases.
Qed.

(** Alice is turned away at noon, and nothing has changed. *)
Lemma failed_request_changes_nothing_witness :
  users (step sample_srv sample_db (CheckOut "d1" "alice" noon noon)).2
  = users sample_db
  ∧ (step sample_srv sample_db (CheckOut "d1" "alice" noon noon)).2 = sample_db.
Proof.
  destruct (failed_request_changes_nothing sample_srv sample_db
              (CheckOut "d1" "alice" noon noon)) as [Husers Hsame].
  split; [exact Husers|]. apply Hsame. discriminate.
Defined.

(** A document that a request finds and leaves in place changes in one of
    the ways of [change]. *)
Lemma step_change srv db op id d d' :
  devices db !! id = Some d →
  devices (step srv db op).2 !! id = Some d' →
  change id d op d'.
Proof.
  intros Hid.
  destruct op as [oid u req| |id0 u|id0 u r t now|id0 u|id0 u entry commit|id0 u now];
    simpl.
  - destruct (post_devices_cases srv db oid u req)
      as [(m & o & mf & -> & _ & _ & _ & _ & _ & _ & _ & _ & _ & Hfresh)|[-> _]];
      simpl; intros Hafter.
    + rewrite lookup_insert_ne in Hafter by congruence.
      simplify_eq. constructor.
    + simplify_eq. constructor.
  - intros Hafter. simplify_eq. constructor.
  - unfold delete_device.
    destruct (devices db !! id0) as [device|] eqn:Hid0; simpl.
    + destruct (negb _); simpl; intros Hafter.
      * simplify_eq. constructor.
      * apply lookup_delete_Some in Hafter as [_ Hafter].
        simplify_eq. constructor.
    + intros Hafter. simplify_eq. constructor.
  - unfold add_feedback.
    destruct (devices db !! id0) as [device|] eqn:Hid0; simpl;
      [|intros; simplify_eq; constructor].
    destruct (reviewedBy u device) eqn:Hrev; simpl;
      [intros; simplify_eq; constructor|].
    destruct (users db !! u) as [user|]; simpl;
      [|intros; simplify_eq; constructor].
    destruct (String.eqb_spec (User.name user) ""); simpl;
      [intros; simplify_eq; constructor|].
    destruct (decide (id0 = id)) as [->|Hne]; intros Hafter.
    + rewrite lookup_insert_eq in Hafter. simplify_eq. by constructor.
    + rewrite lookup_insert_ne in Hafter by done. simplify_eq. constructor.
  - unfold remove_feedback.
    destruct (devices db !! id0) as [device|] eqn:Hid0; simpl;
      [|intros; simplify_eq; constructor].
    destruct (reviewedBy u device) eqn:Hrev; simpl;
      [|intros; simplify_eq; constructor].
    destruct (decide (id0 = id)) as [->|Hne]; intros Hafter.
    + rewrite lookup_insert_eq in Hafter. simplify_eq. by constructor.
    + rewrite lookup_insert_ne in Hafter by done. simplify_eq. constructor.
  - unfold checkout.
    destruct (_ || _); simpl; [intros; simplify_eq; constructor|].
    destruct (devices db !! id0) as [device|] eqn:Hid0; simpl;
      [|intros; simplify_eq; constructor].
    destruct (users db !! u) as [user|]; simpl;
      [|intros; simplify_eq; constructor].
    destruct (findOne (heldBy u) db); simpl;
      [intros; simplify_eq; constructor|].
    destruct (isCheckedOut device) eqn:Hout; simpl;
      [intros; simplify_eq; constructor|].
    destruct (decide (id0 = id)) as [->|Hne]; intros Hafter.
    + rewrite lookup_insert_eq in Hafter. simplify_eq. by constructor.
    + rewrite lookup_insert_ne in Hafter by done. simplify_eq. constructor.
  - unfold checkin.
    destruct (devices db !! id0) as [device|] eqn:Hid0; simpl;
      [|intros; simplify_eq; constructor].
    destruct (isCheckedOut device) eqn:Hout; simpl;
      [|intros; simplify_eq; constructor].
    destruct (users db !! u) as [user|]; simpl;
      [|intros; simplify_eq; constructor].
    destruct (decide (lastCheckedOutBy device = Some u)) as [Hby|Hby].
    + rewrite bool_decide_eq_true_2 by done. simpl.
      destruct (decide (id0 = id)) as [->|Hne]; intros Hafter.
      * rewrite lookup_insert_eq in Hafter. simplify_eq. by constructor.
      * rewrite lookup_insert_ne in Hafter by done. simplify_eq. constructor.
    + rewrite bool_decide_eq_false_2 by done. simpl.
      intros; simplify_eq; constructor.
Qed.

(** A document that appears was registered by the request, with a valid
    body, by a caller whose user document exists. *)
Lemma step_new srv db op id d' :
  devices db !! id = None →
  devices (step srv db op).2 !! id = Some d' →
  ∃ u req m o mf,
    op = Register id u req ∧ d' = newDevice srv m o mf u
    ∧ m ≠ "" ∧ o ≠ "" ∧ mf ≠ ""
    ∧ is_Some (users db !! u) ∧ size (devices db) < 10.
Proof.
  intros Hid Hafter.
  assert (∀ id0 x, is_Some (devices db !! id0) →
            <[id0 := x]> (devices db) !! id = Some d' → False) as Hsave.
  { intros id0 x [d0 Hid0] Hlook.
    rewrite lookup_insert_ne in Hlook by congruence. congruence. }
  destruct op as [oid u req| |id0 u|id0 u r t now|id0 u|id0 u entry commit|id0 u now];
    simpl in Hafter.
  - destruct (post_devices_cases srv db oid u req)
      as [(m & o & mf & Hrun & _ & _ & _ & Hm & Ho & Hmf & _ & Hroom & Huser & Hfresh)
         |[Hrun _]];
      rewrite Hrun in Hafter; simpl in Hafter; [|congruence].
    destruct (decide (oid = id)) as [->|Hne].
    + rewrite lookup_insert_eq in Hafter. simplify_eq.
      by exists u, req, m, o, mf.
    + rewrite lookup_insert_ne in Hafter by done. congruence.
  - congruence.
  - unfold delete_device in Hafter. by_cases; try congruence.
    apply lookup_delete_Some in Hafter as [_ ?]. congruence.
  - unfold add_feedback in Hafter. by_cases; try congruence.
    exfalso. by eapply Hsave.
  - unfold remove_feedback in Hafter. by_cases; try congruence.
    exfalso. by eapply Hsave.
  - unfold checkout in Hafter. by_cases; try congruence.
    exfalso. by eapply Hsave.
  - unfold checkin in Hafter. by_cases; try congruence.
    exfalso. by eapply Hsave.
Qed.

(** X2. No request rewrites what registration has set: a device that a
    request finds and leaves in the registry keeps its model, os,
    manufacturer, registering user and registration date. *)
Theorem registration_attributes_fixed srv db op id d d' :
  devices db !! id = Some d →
  devices (step srv db op).2 !! id = Some d' →
  same_registration d d'.
Proof.
  intros Hid Hafter.
  destruct (step_change srv db op id d d' Hid Hafter); by repeat split.
Qed.

Lemma registration_attributes_fixed_witness :
  same_registration phone
    (set_checkedOut "alice" past_three phone).
Proof.
  apply (registration_attributes_fixed sample_srv sample_db
           (CheckOut "d1" "alice" three past_three) "d1").
  - vm_compute. reflexivity.
  - vm_compute. reflexivity.
Defined.

(** X3. A device leaves the registry only through a removal request for it
    made by the user who registered it. *)
Theorem only_registerer_removes srv db op id d :
  devices db !! id = Some d →
  devices (step srv db op).2 !! id = None →
  op = Remove id (registeredBy d).
Proof.
  intros Hid Hafter.
  assert (∀ id0 x, <[id0 := x]> (devices db) !! id = None → False) as Hsave.
  { intros id0 x Hlook. apply lookup_insert_None in Hlook as [? _]. congruence. }
  destruct op as [oid u req| |id0 u|id0 u r t now|id0 u|id0 u entry commit|id0 u now];
    simpl in Hafter.
  - destruct (post_devices_cases srv db oid u req)
      as [(m & o & mf & Hrun & _)|[Hrun _]];
      rewrite Hrun in Hafter; simpl in Hafter; [|congruence].
    exfalso. by eapply Hsave.
  - congruence.
  - unfold delete_device in Hafter.
    destruct (devices db !! id0) as [device|] eqn:Hid0; simpl in Hafter;
      [|congruence].
    destruct (String.eqb_spec (registeredBy device) u) as [Hby|Hby];
      simpl in Hafter; [|congruence].
    apply lookup_delete_None in Hafter as [->|Hafter]; [|congruence].
    by simplify_eq.
  - unfold add_feedback in Hafter. by_cases; try congruence; try (exfalso; by eapply Hsave).
  - unfold remove_feedback in Hafter. by_cases; try congruence; try (exfalso; by eapply Hsave).
  - unfold checkout in Hafter. by_cases; try congruence; try (exfalso; by eapply Hsave).
  - unfold checkin in Hafter. by_cases; try congruence; try (exfalso; by eapply Hsave).
Qed.

Lemma only_registerer_removes_witness :
  Remove "d2" "bob" = Remove "d2" (registeredBy tablet).
Proof.
  apply (only_registerer_removes sample_srv sample_db (Remove "d2" "bob") "d2").
  - vm_compute. reflexivity.
  - vm_compute. reflexivity.
Defined.

(** X4. Custody changes hands only through the two custody requests: a
    device that a request turns from checked out to not checked out was
    checked in by its holder, and nothing but isCheckedOut and
    lastCheckedInDate changed; a device that a request turns to checked
    out was checked out by the user and at the time its record then
    names. *)
Theorem custody_changes_only_by_holder srv db op id d d' :
  devices db !! id = Some d →
  devices (step srv db op).2 !! id = Some d' →
  isCheckedOut d' ≠ isCheckedOut d →
  (isCheckedOut d = true →
     ∃ u now, op = CheckIn id u now ∧ lastCheckedOutBy d = Some u
              ∧ d' = set_checkedIn now d)
  ∧ (isCheckedOut d = false →
     ∃ u entry commit, op = CheckOut id u entry commit
                       ∧ lastCheckedOutBy d' = Some u
                       ∧ lastCheckedOutDate d' = Some commit).
Proof.
  intros Hid Hafter Hflip.
  destruct (step_change srv db op id d d' Hid Hafter)
    as [op|u r t now name Hrev Hname|u Hrev|u entry commit Hout|u now Hout Hby];
    simpl in Hflip; try done.
  - split; [congruence|]. intros _. by exists u, entry, commit.
  - split; [|congruence]. intros _. by exists u, now.
Qed.

Lemma custody_changes_only_by_holder_witness :
  ∃ u now, CheckIn "d2" "bob" past_three = CheckIn "d2" u now
           ∧ lastCheckedOutBy tablet = Some u
           ∧ set_checkedIn past_three tablet = set_checkedIn now tablet.
Proof.
  apply (custody_changes_only_by_holder sample_srv sample_db
           (CheckIn "d2" "bob" past_three) "d2" tablet
           (set_checkedIn past_three tablet)).
  - vm_compute. reflexivity.
  - vm_compute. reflexivity.
  - discriminate.
  - reflexivity.
Defined.

(** X5. Feedback entries are never rewritten, and only their author takes
    them away. On a device that a request finds and leaves in the
    registry, every entry of the ledger after the request either was in the
    ledger before or is the entry that this AddFeedback request builds for
    its caller (rating 5 when the body gives none, the text of the body,
    the time of the request); and every entry that was in the ledger and
    is gone was removed by a RemoveFeedback request of its own reviewer. *)
Theorem feedback_entries_fixed srv db op id d d' :
  devices db !! id = Some d →
  devices (step srv db op).2 !! id = Some d' →
  (∀ fb, fb ∈ feedbacks d' →
     fb ∈ feedbacks d
     ∨ ∃ r t now, op = AddFeedback id (Feedback.user fb) r t now
                  ∧ Feedback.rating fb = default 5%Z r
                  ∧ Feedback.text fb = t ∧ Feedback.date fb = now)
  ∧ (∀ fb, fb ∈ feedbacks d → fb ∉ feedbacks d' →
       op = RemoveFeedback id (Feedback.user fb)).
Proof.
  intros Hid Hafter.
  destruct (step_change srv db op id d d' Hid Hafter)
    as [op|u r t now name Hrev Hname|u Hrev|u entry commit Hout|u now Hout Hby];
    simpl; try (split; [by left|done]).
  - split.
    + intros fb [->|Hin]%elem_of_cons; [|by left].
      right. by exists r, t, now.
    + intros fb Hin Hgone. exfalso. apply Hgone. by right.
  - split.
    + intros fb Hin. left. by apply elem_of_filter_notBy in Hin as [? _].
    + intros fb Hin Hgone.
      destruct (decide (Feedback.user fb = u)) as [->|Hne]; [done|].
      exfalso. apply Hgone. by apply elem_of_filter_notBy.
Qed.

Lemma feedback_entries_fixed_witness :
  (∀ fb, fb ∈ feedbacks (set_feedbacks [] phone) →
     fb ∈ feedbacks phone
     ∨ ∃ r t now, RemoveFeedback "d1" "bob" = AddFeedback "d1" (Feedback.user fb) r t now
                  ∧ Feedback.rating fb = default 5%Z r
                  ∧ Feedback.text fb = t ∧ Feedback.date fb = now)
  ∧ (∀ fb, fb ∈ feedbacks phone → fb ∉ feedbacks (set_feedbacks [] phone) →
       RemoveFeedback "d1" "bob" = RemoveFeedback "d1" (Feedback.user fb)).
Proof.
  apply (feedback_entries_fixed sample_srv sample_db (RemoveFeedback "d1" "bob") "d1").
  - vm_compute. reflexivity.
  - vm_compute. reflexivity.
Defined.

(** *** What every stored document satisfies *)

(** A property that every newly registered device has and that every way
    of changing a document keeps holds of every document of every
    reachable state. *)
Lemma reachable_documents srv (Q : Device → Prop) :
  (∀ u m o mf, m ≠ "" → o ≠ "" → mf ≠ "" → Q (newDevice srv m o mf u)) →
  (∀ id d op d', Q d → change id d op d' → Q d') →
  ∀ db, reachable srv db → ∀ id d, devices db !! id = Some d → Q d.
Proof.
  intros Hnew Hkeep db Hreach.
  induction Hreach as [us|db op Hreach IH|db us Hreach IH]; intros id d' Hafter.
  - simpl in Hafter. by rewrite lookup_empty in Hafter.
  - destruct (devices db !! id) as [d|] eqn:Hid.
    + apply (Hkeep id d op d'); [by apply (IH id)|].
      by apply (step_change srv db).
    + destruct (step_new srv db op id d' Hid Hafter)
        as (u & req & m & o & mf & _ & -> & Hm & Ho & Hmf & _).
      by apply Hnew.
  - by apply (IH id).
Qed.

(** X6. Every document of every state the router reaches is sound: model,
    os and manufacturer are not empty; registeredDate is the load time of
    the schema (so all devices of one server process carry the same
    registration date); a checked-out device has lastCheckedOutBy and
    lastCheckedOutDate set; lastCheckedInDate is set only on a device that
    has a lastCheckedOutBy; lastCheckedOutBy and lastCheckedOutDate are set
    together; and no feedback entry has an empty name. *)
Theorem stored_documents_sound srv db id d :
  reachable srv db →
  devices db !! id = Some d →
  sound_document srv d.
Proof.
  intros Hreach Hid.
  apply (reachable_documents srv (sound_document srv)) with db id;
    [| |done|done]; clear.
  - intros u m o mf Hm Ho Hmf. unfold sound_document; simpl.
    repeat split; try done.
    by intros fb ?%elem_of_nil.
  - intros id d op d' (Hm & Ho & Hmf & Hdate & Hout & Hin & Hboth & Hnames) Hch.
    destruct Hch as [op|u r t now name Hrev Hname|u Hrev|u entry commit Hfree
                    |u now Hheld Hby];
      unfold sound_document; simpl; split_and!; try done; try tauto.
    + intros fb [->|Hfb]%elem_of_cons; [done|by apply Hnames].
    + intros fb Hfb. apply Hnames.
      by apply elem_of_filter_notBy in Hfb as [? _].
Qed.

Lemma stored_documents_sound_witness :
  sound_document sample_srv
    (set_checkedOut "alice" three
       (newDevice sample_srv "Pixel 4" "Android" "Google" "alice")).
Proof.
  apply (stored_documents_sound sample_srv after_sample_run "d1").
  - apply run_reachable. constructor.
  - vm_compute. reflexivity.
Defined.

(** *** The check-out window *)

Lemma inWindow_msOfDay srv tz t :
  (∀ x, getTimezoneOffset srv x = tz) →
  inWindow srv t ↔ (54000000 ≤ msOfDay tz t < 64800000)%Z.
Proof.
  intros Htz. unfold inWindow, getHours, msOfDay. rewrite Htz.
  set (x := (t - tz * 60000)%Z).
  change 86400000%Z with (3600000 * 24)%Z.
  rewrite Z.rem_mul_r by lia.
  pose proof (Z.mod_pos_bound x 3600000) as Hms.
  pose proof (Z.mod_pos_bound (x / 3600000) 24) as Hh.
  lia.
Qed.

(** X7. On a host with a fixed offset from UTC, check-out is open from
    15:00:00.000 to 17:59:59.999 local time, every day: the handler answers
    OutsideAdmissionWindow exactly when the time of the request, in
    milliseconds since local midnight, lies outside 54000000 ..
    64799999, whatever the device, the caller and the registry. *)
Theorem checkout_window srv tz db id u entry commit :
  (∀ x, getTimezoneOffset srv x = tz) →
  (checkout srv db id u entry commit).1 = OutsideAdmissionWindow
  ↔ ¬ (54000000 ≤ msOfDay tz entry < 64800000)%Z.
Proof.
  intros Htz. rewrite <- (inWindow_msOfDay srv tz entry Htz).
  rewrite <- window_test. unfold checkout.
  destruct (_ || _); [by split|].
  split; [|done]. intros Hresp. exfalso. revert Hresp. by_cases.
Qed.

Lemma checkout_window_witness :
  (checkout sample_srv sample_db "d1" "alice" noon noon).1 = OutsideAdmissionWindow
  ↔ ¬ (54000000 ≤ msOfDay 0 noon < 64800000)%Z.
Proof.
  apply (checkout_window sample_srv 0 sample_db "d1" "alice" noon noon).
  reflexivity.
Defined.

Example noon_msOfDay : msOfDay 0 noon = 44800000%Z.
Proof. reflexivity. Qed.

(** *** Requests in sequence *)

(** What a successful [checkout] has tested and done. *)
Lemma checkout_ok srv db id u entry commit resp db' :
  checkout srv db id u entry commit = (resp, db') → status resp = 200%Z →
  ∃ device,
    inWindow srv entry
    ∧ devices db !! id = Some device
    ∧ isCheckedOut device = false
    ∧ is_Some (users db !! u)
    ∧ (¬ ∃ k d, devices db !! k = Some d ∧ holding u d)
    ∧ db' = save id (set_checkedOut u commit device) db
    ∧ resp = json (DeviceDocs (find_sorted db')).
Proof.
  unfold checkout. intros Hrun Hok.
  destruct (_ || _) eqn:Hwin; [not_ok|]. apply window_test in Hwin.
  destruct (devices db !! id) as [device|]; [|not_ok].
  destruct (users db !! u) as [user|] eqn:Huser; [|not_ok].
  destruct (findOne (heldBy u) db) eqn:Hfind; [not_ok|].
  apply findOne_heldBy_None in Hfind.
  destruct (isCheckedOut device) eqn:Hout; [not_ok|].
  simplify_eq. exists device. by split_and!.
Qed.

(** A request that passes the four tests of [checkout] is served. *)
Lemma checkout_accepts srv db id u entry commit device :
  inWindow srv entry →
  devices db !! id = Some device →
  isCheckedOut device = false →
  is_Some (users db !! u) →
  (¬ ∃ k d, devices db !! k = Some d ∧ holding u d) →
  checkout srv db id u entry commit
  = (json (DeviceDocs (find_sorted (save id (set_checkedOut u commit device) db))),
     save id (set_checkedOut u commit device) db).
Proof.
  intros Hwin Hid Hout [user Huser] Hfree. unfold checkout.
  apply window_test in Hwin. apply findOne_heldBy_None in Hfree.
  by rewrite Hwin, Hid, Huser, Hfree, Hout.
Qed.

(** A user who holds a device is found by the scan of [checkout]. *)
Lemma findOne_heldBy_Some u db k d :
  devices db !! k = Some d → holding u d → is_Some (findOne (heldBy u) db).
Proof.
  intros Hk Hh.
  destruct (findOne (heldBy u) db) eqn:Hfind; [done|].
  apply findOne_heldBy_None in Hfind. exfalso. apply Hfind. by exists k, d.
Qed.

(** X8. Once a user has checked a device out, until it is checked in or
    removed: every check-out request of that user inside the window, for
    any device of the registry, is refused with UserAlreadyHolding; a
    check-out request for the device by another user who holds nothing is
    refused with AlreadyCheckedOut; and a check-in request for it by
    another user is refused with NotHolder. None of them changes the
    state. *)
Theorem checkout_then_conflicts srv db id u entry commit resp db1 :
  checkout srv db id u entry commit = (resp, db1) →
  status resp = 200%Z →
  (∀ id2 entry2 commit2,
     inWindow srv entry2 → is_Some (devices db1 !! id2) →
     checkout srv db1 id2 u entry2 commit2 = (UserAlreadyHolding, db1))
  ∧ (∀ u2 entry2 commit2,
       u2 ≠ u → inWindow srv entry2 → is_Some (users db1 !! u2) →
       (¬ ∃ k d, devices db !! k = Some d ∧ holding u2 d) →
       checkout srv db1 id u2 entry2 commit2 = (AlreadyCheckedOut, db1))
  ∧ (∀ u2 now,
       u2 ≠ u → is_Some (users db1 !! u2) →
       checkin db1 id u2 now = (NotHolder, db1)).
Proof.
  intros Hrun Hok.
  destruct (checkout_ok _ _ _ _ _ _ _ _ Hrun Hok)
    as (device & Hwin & Hid & Hout & Huser & Hfree & -> & _).
  set (device1 := set_checkedOut u commit device).
  assert (devices (save id device1 db) !! id = Some device1) as Hid1
    by apply lookup_insert_eq.
  split; [|split].
  - intros id2 entry2 commit2 Hwin2 [device2 Hid2]. unfold checkout.
    apply window_test in Hwin2. rewrite Hwin2, Hid2.
    destruct Huser as [user Huser]. simpl users. rewrite Huser.
    destruct (findOne_heldBy_Some u (save id device1 db) id device1 Hid1)
      as [another ->]; by split.
  - intros u2 entry2 commit2 Hne Hwin2 [user2 Huser2] Hfree2. unfold checkout.
    apply window_test in Hwin2. rewrite Hwin2, Hid1, Huser2.
    assert (findOne (heldBy u2) (save id device1 db) = None) as ->; [|done].
    apply findOne_heldBy_None. intros (k & d & Hk & Hh).
    destruct (decide (k = id)) as [->|Hk'].
    + rewrite Hid1 in Hk. simplify_eq. destruct Hh as [_ Hby].
      simpl in Hby. congruence.
    + simpl in Hk. rewrite lookup_insert_ne in Hk by done.
      apply Hfree2. by exists k, d.
  - intros u2 now Hne [user2 Huser2]. unfold checkin.
    rewrite Hid1, Huser2. simpl.
    rewrite bool_decide_eq_false_2; [done|]. congruence.
Qed.

Lemma checkout_then_conflicts_witness :
  checkout sample_srv
    (checkout sample_srv sample_db3 "d1" "alice" three three).2
    "d2" "alice" past_three past_three
  = (UserAlreadyHolding, (checkout sample_srv sample_db3 "d1" "alice" three three).2)
  ∧ checkout sample_srv
      (checkout sample_srv sample_db3 "d1" "alice" three three).2
      "d1" "carol" past_three past_three
    = (AlreadyCheckedOut, (checkout sample_srv sample_db3 "d1" "alice" three three).2)
  ∧ checkin (checkout sample_srv sample_db3 "d1" "alice" three three).2
      "d1" "carol" past_three
    = (NotHolder, (checkout sample_srv sample_db3 "d1" "alice" three three).2).
Proof.
  destruct (checkout_then_conflicts sample_srv sample_db3 "d1" "alice" three three
              (checkout sample_srv sample_db3 "d1" "alice" three three).1
              (checkout sample_srv sample_db3 "d1" "alice" three three).2)
    as (Hmine & Hother & Hin).
  - vm_compute. reflexivity.
  - reflexivity.
  - assert (inWindow sample_srv past_three) as Hwin.
    { unfold inWindow. rewrite hours_past_three. lia. }
    split; [|split].
    + apply Hmine; [exact Hwin|]. exists tablet. vm_compute. reflexivity.
    + apply Hother; [discriminate|exact Hwin| |].
      * exists (User.mk "Carol"). vm_compute. reflexivity.
      * apply findOne_heldBy_None. vm_compute. reflexivity.
    + apply Hin; [discriminate|].
      exists (User.mk "Carol"). vm_compute. reflexivity.
Defined.

(** X9. A device goes from hand to hand: after a user has checked a device
    out and checked it in, the record keeps that user as last holder with
    the check-out and check-in times, a second check-in is refused with
    NotCheckedOut, and a check-out request for the device inside the
    window, by any user with a user document who held nothing before, is
    served and makes that user the holder. *)
Theorem checkout_checkin_hand_over srv db id u entry commit resp db1 now :
  checkout srv db id u entry commit = (resp, db1) →
  status resp = 200%Z →
  ∃ db2 device2,
    checkin db1 id u now = (json (DeviceDocs (find_sorted db2)), db2)
    ∧ devices db2 !! id = Some device2
    ∧ isCheckedOut device2 = false
    ∧ lastCheckedOutBy device2 = Some u
    ∧ lastCheckedOutDate device2 = Some commit
    ∧ lastCheckedInDate device2 = Some now
    ∧ (∀ u' now', checkin db2 id u' now' = (NotCheckedOut, db2))
    ∧ (∀ u2 entry2 commit2,
         inWindow srv entry2 → is_Some (users db2 !! u2) →
         (¬ ∃ k d, devices db !! k = Some d ∧ holding u2 d) →
         ∃ db3 device3,
           checkout srv db2 id u2 entry2 commit2
             = (json (DeviceDocs (find_sorted db3)), db3)
           ∧ devices db3 !! id = Some device3
           ∧ holding u2 device3
           ∧ lastCheckedInDate device3 = Some now).
Proof.
  intros Hrun Hok.
  destruct (checkout_ok _ _ _ _ _ _ _ _ Hrun Hok)
    as (device & Hwin & Hid & Hout & [user Huser] & Hfree & -> & _).
  set (device1 := set_checkedOut u commit device).
  set (device2 := set_checkedIn now device1).
  set (db2 := save id device2 (save id device1 db)).
  assert (devices db2 !! id = Some device2) as Hid2 by apply lookup_insert_eq.
  exists db2, device2. split_and!; try done.
  - unfold checkin. simpl devices. rewrite lookup_insert_eq. simpl.
    rewrite Huser. by rewrite bool_decide_eq_true_2.
  - intros u' now'. unfold checkin. by rewrite Hid2.
  - intros u2 entry2 commit2 Hwin2 Huser2 Hfree2.
    exists (save id (set_checkedOut u2 commit2 device2) db2),
      (set_checkedOut u2 commit2 device2).
    split_and!; [|apply lookup_insert_eq|done|done].
    apply checkout_accepts; try done.
    intros (k & d & Hk & Hh). unfold db2 in Hk. simpl in Hk.
    destruct (decide (k = id)) as [->|Hk'].
    + rewrite lookup_insert_eq in Hk. simplify_eq. by destruct Hh.
    + rewrite !lookup_insert_ne in Hk by done.
      apply Hfree2. by exists k, d.
Qed.

Lemma checkout_checkin_hand_over_witness :
  ∃ db2 device2,
    checkin (checkout sample_srv sample_db3 "d1" "alice" three three).2
      "d1" "alice" past_three
    = (json (DeviceDocs (find_sorted db2)), db2)
    ∧ devices db2 !! "d1" = Some device2
    ∧ lastCheckedOutBy device2 = Some "alice"
    ∧ ∃ db3 device3,
        checkout sample_srv db2 "d1" "carol" past_three past_three
        = (json (DeviceDocs (find_sorted db3)), db3)
        ∧ devices db3 !! "d1" = Some device3
        ∧ holding "carol" device3.
Proof.
  destruct (checkout_checkin_hand_over sample_srv sample_db3 "d1" "alice" three three
              (checkout sample_srv sample_db3 "d1" "alice" three three).1
              (checkout sample_srv sample_db3 "d1" "alice" three three).2
              past_three)
    as (db2 & device2 & Hin & Hid2 & _ & Hby & _ & _ & _ & Hnext).
  - vm_compute. reflexivity.
  - reflexivity.
  - exists db2, device2. split; [exact Hin|]. split; [exact Hid2|].
    split; [exact Hby|].
    destruct (Hnext "carol" past_three past_three)
      as (db3 & device3 & Hout3 & Hid3 & Hholds & _).
    + unfold inWindow. rewrite hours_past_three. lia.
    + injection Hin as _ <-. exists (User.mk "Carol"). vm_compute. reflexivity.
    + apply findOne_heldBy_None. vm_compute. reflexivity.
    + by exists db3, device3.
Defined.

(** What a successful [delete_device] has tested and done. *)
Lemma delete_device_ok db id u resp db' :
  delete_device db id u = (resp, db') → status resp = 200%Z →
  ∃ device,
    devices db !! id = Some device ∧ registeredBy device = u
    ∧ db' = remove id db ∧ resp = json (Msg "Device removed").
Proof.
  unfold delete_device. intros Hrun Hok.
  destruct (devices db !! id) as [device|]; [|not_ok].
  destruct (String.eqb_spec (registeredBy device) u) as [Hby|Hby];
    simpl in Hrun; [|not_ok].
  simplify_eq. by exists device.
Qed.

(** X10. Removing a checked-out device releases its holder: when the
    registerer removes a device that a user holds, and that user holds no
    other, a check-in request for the removed device answers NotFound, and
    a check-out request of that user for a free device, inside the window,
    is served. *)
Theorem removal_releases_holder srv db id requester resp db1 device u :
  delete_device db id requester = (resp, db1) →
  status resp = 200%Z →
  devices db !! id = Some device →
  holding u device →
  (∀ k d, devices db !! k = Some d → holding u d → k = id) →
  is_Some (users db !! u) →
  (∀ now, checkin db1 id u now = (NotFound, db1))
  ∧ (∀ id2 device2 entry commit,
       devices db !! id2 = Some device2 → id2 ≠ id →
       isCheckedOut device2 = false → inWindow srv entry →
       checkout srv db1 id2 u entry commit
       = (json (DeviceDocs (find_sorted (save id2 (set_checkedOut u commit device2) db1))),
          save id2 (set_checkedOut u commit device2) db1)).
Proof.
  intros Hrun Hok Hid Hholds Honly Huser.
  destruct (delete_device_ok _ _ _ _ _ Hrun Hok) as (device' & _ & _ & -> & _).
  split.
  - intros now. unfold checkin. simpl devices. by rewrite lookup_delete_eq.
  - intros id2 device2 entry commit Hid2 Hne Hfree Hwin.
    apply checkout_accepts; try done.
    + simpl. by rewrite lookup_delete_ne.
    + intros (k & d & Hk & Hh). simpl in Hk.
      apply lookup_delete_Some in Hk as [Hk' Hk]. apply Hk'. symmetry.
      by apply (Honly k d).
Qed.

Lemma removal_releases_holder_witness :
  checkin (delete_device sample_db "d2" "bob").2 "d2" "bob" past_three
  = (NotFound, (delete_device sample_db "d2" "bob").2)
  ∧ status (checkout sample_srv (delete_device sample_db "d2" "bob").2
              "d1" "bob" three past_three).1 = 200%Z.
Proof.
  destruct (removal_releases_holder sample_srv sample_db "d2" "bob"
              (delete_device sample_db "d2" "bob").1
              (delete_device sample_db "d2" "bob").2 tablet "bob")
    as [Hgone Hnext].
  - vm_compute. reflexivity.
  - reflexivity.
  - vm_compute. reflexivity.
  - by split.
  - intros k d Hk [Hout _]. unfold sample_db in Hk. simpl in Hk.
    destruct (decide (k = "d2")) as [->|Hne2]; [done|].
    destruct (decide (k = "d1")) as [->|Hne1].
    + rewrite lookup_insert_eq in Hk. by simplify_eq.
    + rewrite lookup_insert_ne, lookup_insert_ne, lookup_empty in Hk by done.
      done.
  - exists (User.mk "Bob"). vm_compute. reflexivity.
  - split; [apply Hgone|].
    rewrite (Hnext "d1" phone three past_three); [reflexivity| | | |].
    + vm_compute. reflexivity.
    + discriminate.
    + reflexivity.
    + unfold inWindow. rewrite hours_three. lia.
Defined.

(** X11. Registration is undone by removal: after a successful Register,
    a Remove of the new device by the user who registered it is served and
    leaves both collections exactly as they were before the registration,
    while a Remove by any other user is refused with Forbidden. *)
Theorem register_then_remove srv db oid u m o mf resp db1 :
  register srv db oid u m o mf = (resp, db1) →
  status resp = 200%Z →
  delete_device db1 oid u = (json (Msg "Device removed"), db)
  ∧ (∀ u2, u2 ≠ u → delete_device db1 oid u2 = (Forbidden, db1)).
Proof.
  intros Hrun Hok.
  destruct (register_ok _ _ _ _ _ _ _ _ _ Hrun Hok)
    as (_ & _ & _ & Hfresh & _ & ->).
  unfold delete_device. simpl devices. rewrite lookup_insert_eq. simpl.
  split.
  - rewrite String.eqb_refl. simpl. f_equal.
    destruct db as [ds us]. unfold remove, save; simpl in *.
    by rewrite delete_insert_id.
  - intros u2 Hne.
    destruct (String.eqb_spec u u2) as [Heq|_]; [congruence|done].
Qed.

Lemma register_then_remove_witness :
  delete_device
    (register sample_srv sample_db "d3" "alice" "Kindle" "Fire OS" "Amazon").2
    "d3" "alice"
  = (json (Msg "Device removed"), sample_db)
  ∧ delete_device
      (register sample_srv sample_db "d3" "alice" "Kindle" "Fire OS" "Amazon").2
      "d3" "bob"
    = (Forbidden,
       (register sample_srv sample_db "d3" "alice" "Kindle" "Fire OS" "Amazon").2).
Proof.
  destruct (register_then_remove sample_srv sample_db "d3" "alice"
              "Kindle" "Fire OS" "Amazon"
              (register sample_srv sample_db "d3" "alice" "Kindle" "Fire OS" "Amazon").1
              (register sample_srv sample_db "d3" "alice" "Kindle" "Fire OS" "Amazon").2)
    as [Hback Hother].
  - vm_compute. reflexivity.
  - reflexivity.
  - split; [exact Hback|]. apply Hother. discriminate.
Defined.

(** X12. Removal frees a slot of the pool: when the registry holds 10
    devices, a Register with a valid body is refused with
    CapacityExceeded, and after a successful Remove the same kind of
    request, by a user with a user document and under an unused id, is
    served and brings the registry back to 10 devices. *)
Theorem removal_frees_a_slot srv db id requester resp db1 oid u m o mf :
  delete_device db id requester = (resp, db1) →
  status resp = 200%Z →
  size (devices db) = 10 →
  m ≠ "" → o ≠ "" → mf ≠ "" →
  is_Some (users db !! u) →
  devices db1 !! oid = None →
  register srv db oid u m o mf = (CapacityExceeded, db)
  ∧ status (register srv db1 oid u m o mf).1 = 200%Z
  ∧ size (devices (register srv db1 oid u m o mf).2) = 10.
Proof.
  intros Hrun Hok Hsize Hm Ho Hmf Huser Hfresh.
  destruct (delete_device_ok _ _ _ _ _ Hrun Hok) as (device & Hid & _ & -> & _).
  assert (size (devices (remove id db)) = 9) as Hsize1.
  { simpl. rewrite map_size_delete_Some by (by rewrite Hid). lia. }
  split.
  - rewrite register_unfold.
    assert (validationResult (body_only m o mf) = []) as -> by by apply validationResult_body_only_nil.
    cbn [negb isEmpty]. by rewrite Hsize.
  - rewrite register_accepts; [|done|done|done|lia|done|done].
    split; [done|]. simpl. simpl in Hsize1, Hfresh.
    rewrite map_size_insert_None by done. lia.
Qed.

Lemma removal_frees_a_slot_witness :
  register sample_srv full_db "d11" "alice" "Kindle" "Fire OS" "Amazon"
  = (CapacityExceeded, full_db)
  ∧ status (register sample_srv (delete_device full_db "d04" "alice").2
              "d11" "alice" "Kindle" "Fire OS" "Amazon").1 = 200%Z
  ∧ size (devices (register sample_srv (delete_device full_db "d04" "alice").2
                     "d11" "alice" "Kindle" "Fire OS" "Amazon").2) = 10.
Proof.
  apply (removal_frees_a_slot sample_srv full_db "d04" "alice"
           (delete_device full_db "d04" "alice").1).
  - vm_compute. reflexivity.
  - reflexivity.
  - vm_compute. reflexivity.
  - discriminate.
  - discriminate.
  - discriminate.
  - exists (User.mk "Alice"). vm_compute. reflexivity.
  - vm_compute. reflexivity.
Defined.

(** *** Listing *)

(** X13. The listing answers 200 with every device of the registry exactly
    once under its id and nothing else, changes nothing, and in every state
    the router reaches it has at most 10 entries. *)
Theorem listing_is_the_registry srv db :
  reachable srv db →
  ∃ ds,
    list_devices db = (json (DeviceDocs ds), db)
    ∧ NoDup ds.*1
    ∧ (∀ id d, (id, d) ∈ ds ↔ devices db !! id = Some d)
    ∧ length ds ≤ 10.
Proof.
  intros Hreach. exists (find_sorted db). unfold list_devices, find_sorted.
  split_and!.
  - done.
  - apply NoDup_fst_map_to_list.
  - intros id d. apply elem_of_map_to_list.
  - rewrite length_map_to_list. by apply (reachable_capacity srv).
Qed.

Lemma listing_is_the_registry_witness :
  ∃ ds,
    list_devices after_sample_run = (json (DeviceDocs ds), after_sample_run)
    ∧ NoDup ds.*1
    ∧ (∀ id d, (id, d) ∈ ds ↔ devices after_sample_run !! id = Some d)
    ∧ length ds ≤ 10.
Proof.
  apply (listing_is_the_registry sample_srv after_sample_run).
  apply run_reachable. constructor.
Defined.

(** *** Registration requests that fail validation *)






Example register_validation_errors :
  (post_devices sample_srv full_db "d11" "nobody" incomplete_request).1
  = ValidationError ["model is required"; "manufacturer is required"].
Proof. reflexivity. Qed.

(** *** A caller without a user document *)

(** X15. The handlers that read the caller's user document do not test
    whether it was found: for a caller whose document is missing, a
    Register that has passed validation and the capacity check, a
    CheckOut inside the window for a device of the registry, a CheckIn for
    a checked-out device and an AddFeedback on a device the caller has not
    reviewed all answer the 500 of the catch block and change nothing.
    The removal of a device and of a feedback entry never read the user
    collection: their answer and their effect on the devices do not depend
    on it. *)
Theorem unknown_caller srv db u :
  users db !! u = None →
  (∀ oid m o mf,
     m ≠ "" → o ≠ "" → mf ≠ "" → size (devices db) < 10 →
     register srv db oid u m o mf = (ServerError, db))
  ∧ (∀ id entry commit,
       inWindow srv entry → is_Some (devices db !! id) →
       checkout srv db id u entry commit = (ServerError, db))
  ∧ (∀ id d now,
       devices db !! id = Some d → isCheckedOut d = true →
       checkin db id u now = (ServerError, db))
  ∧ (∀ id d r t now,
       devices db !! id = Some d → reviewedBy u d = false →
       add_feedback db id u r t now = (ServerError, db))
  ∧ (∀ id us,
       (delete_device (mkDb (devices db) us) id u).1 = (delete_device db id u).1
       ∧ devices (delete_device (mkDb (devices db) us) id u).2
         = devices (delete_device db id u).2)
  ∧ (∀ id us,
       (remove_feedback (mkDb (devices db) us) id u).1 = (remove_feedback db id u).1
       ∧ devices (remove_feedback (mkDb (devices db) us) id u).2
         = devices (remove_feedback db id u).2).
Proof.
  intros Hnone. split_and!.
  - intros oid m o mf Hm Ho Hmf Hroom. rewrite register_unfold.
    assert (validationResult (body_only m o mf) = []) as -> by by apply validationResult_body_only_nil.
    cbn [negb isEmpty]. apply Nat.leb_gt in Hroom. by rewrite Hroom, Hnone.
  - intros id entry commit Hwin [d Hid]. unfold checkout.
    apply window_test in Hwin. by rewrite Hwin, Hid, Hnone.
  - intros id d now Hid Hout. unfold checkin. by rewrite Hid, Hout, Hnone.
  - intros id d r t now Hid Hrev. unfold add_feedback.
    by rewrite Hid, Hrev, Hnone.
  - intros id us. unfold delete_device. simpl devices.
    destruct (devices db !! id) as [device|]; [|done].
    by destruct (negb _).
  - intros id us. unfold remove_feedback. simpl devices.
    destruct (devices db !! id) as [device|]; [|done].
    by destruct (negb _).
Qed.

Lemma unknown_caller_witness :
  checkout sample_srv sample_db "d1" "carol" three past_three
  = (ServerError, sample_db)
  ∧ add_feedback sample_db "d1" "carol" None None three = (ServerError, sample_db).
Proof.
  destruct (unknown_caller sample_srv sample_db "carol")
    as (_ & Hout & _ & Hadd & _).
  - vm_compute. reflexivity.
  - split.
    + apply Hout.
      * unfold inWindow. rewrite hours_three. lia.
      * exists phone. vm_compute. reflexivity.
    + apply Hadd with phone; [vm_compute|]; reflexivity.
Defined.

(** *** Feedback requests *)

(** X16. AddFeedback is served exactly when the device is in the registry,
    the caller has no entry on it, and the caller's user document exists
    and has a name; RemoveFeedback is served exactly when the device is in
    the registry and the caller has an entry on it. Neither looks at who
    registered the device or at whether and by whom it is checked out. *)
Theorem feedback_served_iff db id u r t now :
  (status (add_feedback db id u r t now).1 = 200%Z
   ↔ ∃ d user,
       devices db !! id = Some d
       ∧ (∀ fb, fb ∈ feedbacks d → Feedback.user fb ≠ u)
       ∧ users db !! u = Some user ∧ User.name user ≠ "")
  ∧ (status (remove_feedback db id u).1 = 200%Z
     ↔ ∃ d fb,
         devices db !! id = Some d ∧ fb ∈ feedbacks d ∧ Feedback.user fb = u).
Proof.
  split; split.
  - intros Hok.
    destruct (add_feedback db id u r t now) as [resp db'] eqn:Hrun.
    destruct (add_feedback_ok _ _ _ _ _ _ _ _ Hrun Hok)
      as (d & user & Hid & Huser & Hrev & _).
    exists d, user. split_and!; [done|by apply reviewedBy_false|done|].
    intros Hname. unfold add_feedback in Hrun.
    rewrite Hid, Hrev, Huser, Hname in Hrun. simpl in Hrun. not_ok.
  - intros (d & user & Hid & Hrev & Huser & Hname).
    apply reviewedBy_false in Hrev. apply String.eqb_neq in Hname.
    unfold add_feedback. by rewrite Hid, Hrev, Huser, Hname.
  - intros Hok.
    destruct (remove_feedback db id u) as [resp db'] eqn:Hrun.
    destruct (remove_feedback_ok _ _ _ _ _ Hrun Hok) as (d & Hid & Hrev & _).
    apply reviewedBy_true in Hrev as (fb & Hin & Hfb). by exists d, fb.
  - intros (d & fb & Hid & Hin & Hfb).
    assert (reviewedBy u d = true) as Hrev.
    { apply reviewedBy_true. by exists fb. }
    unfold remove_feedback. by rewrite Hid, Hrev.
Qed.

Lemma feedback_served_iff_witness :
  status (add_feedback sample_db "d2" "bob" None None three).1 = 200%Z
  ∧ status (remove_feedback sample_db "d1" "bob").1 = 200%Z.
Proof.
  destruct (feedback_served_iff sample_db "d2" "bob" None None three)
    as [[_ Hadd] _].
  destruct (feedback_served_iff sample_db "d1" "bob" None None three)
    as [_ [_ Hremove]].
  split.
  - apply Hadd. exists tablet, (User.mk "Bob").
    split_and!; [vm_compute; reflexivity| |vm_compute; reflexivity|discriminate].
    by intros fb ?%elem_of_nil.
  - apply Hremove. eexists phone, _.
    split_and!; [vm_compute; reflexivity|by left|reflexivity].
Defined.

(** X17. A feedback request cannot be repeated: after a served
    AddFeedback every further AddFeedback of that caller on the device is
    refused with DuplicateReview, after a served RemoveFeedback a further
    RemoveFeedback of that caller on the device is refused with
    ReviewNotFound, and so is a RemoveFeedback by a caller who has no
    entry on a device of the registry. The refused request changes
    nothing. *)
Theorem feedback_not_repeated db id u :
  (∀ r t now resp db1 r' t' now',
     add_feedback db id u r t now = (resp, db1) → status resp = 200%Z →
     add_feedback db1 id u r' t' now' = (DuplicateReview, db1))
  ∧ (∀ resp db1,
       remove_feedback db id u = (resp, db1) → status resp = 200%Z →
       remove_feedback db1 id u = (ReviewNotFound, db1))
  ∧ (∀ d,
       devices db !! id = Some d →
       (∀ fb, fb ∈ feedbacks d → Feedback.user fb ≠ u) →
       remove_feedback db id u = (ReviewNotFound, db)).
Proof.
  split_and!.
  - intros r t now resp db1 r' t' now' Hrun Hok.
    destruct (add_feedback_ok _ _ _ _ _ _ _ _ Hrun Hok)
      as (d & user & Hid & Huser & Hrev & _ & ->).
    unfold add_feedback. simpl devices. rewrite lookup_insert_eq.
    unfold reviewedBy. simpl. by rewrite String.eqb_refl.
  - intros resp db1 Hrun Hok.
    destruct (remove_feedback_ok _ _ _ _ _ Hrun Hok)
      as (d & Hid & Hrev & _ & ->).
    unfold remove_feedback at 1. simpl devices. rewrite lookup_insert_eq.
    assert (reviewedBy u (set_feedbacks (List.filter (notBy u) (feedbacks d)) d)
            = false) as ->; [|done].
    apply reviewedBy_false. intros fb Hin. simpl in Hin.
    by apply elem_of_filter_notBy in Hin as [_ ?].
  - intros d Hid Hrev. apply reviewedBy_false in Hrev.
    unfold remove_feedback. by rewrite Hid, Hrev.
Qed.

Lemma feedback_not_repeated_witness :
  add_feedback (add_feedback sample_db "d1" "alice" None (Some "Slow") three).2
    "d1" "alice" (Some 1%Z) None past_three
  = (DuplicateReview, (add_feedback sample_db "d1" "alice" None (Some "Slow") three).2)
  ∧ remove_feedback (remove_feedback sample_db "d1" "bob").2 "d1" "bob"
    = (ReviewNotFound, (remove_feedback sample_db "d1" "bob").2)
  ∧ remove_feedback sample_db "d2" "bob" = (ReviewNotFound, sample_db).
Proof.
  destruct (feedback_not_repeated sample_db "d1" "alice") as (Hadd & _ & _).
  destruct (feedback_not_repeated sample_db "d1" "bob") as (_ & Hremove & _).
  destruct (feedback_not_repeated sample_db "d2" "bob") as (_ & _ & Hnone).
  split_and!.
  - apply (Hadd None (Some "Slow") three
             (add_feedback sample_db "d1" "alice" None (Some "Slow") three).1).
    + vm_compute. reflexivity.
    + reflexivity.
  - apply (Hremove (remove_feedback sample_db "d1" "bob").1).
    + vm_compute. reflexivity.
    + reflexivity.
  - apply Hnone with tablet; [vm_compute; reflexivity|].
    by intros fb ?%elem_of_nil.
Defined.

(** *** Registration requests *)

(** X18. Register is served exactly when model, os and manufacturer pass
    validation and the body carries them, the registry holds fewer than 10
    devices, the caller's user document exists and the id generated for
    the new document is unused; it then stores the new device under that
    id and changes no other. A request whose fields pass validation but
    are not all in the body (they come in the query, say) gets, once past
    the capacity check and the user lookup, the 500 of the catch block. *)
Theorem register_served_iff srv db oid u req :
  (status (post_devices srv db oid u req).1 = 200%Z
   ↔ fields_valid req
     ∧ in_body req "model" ∧ in_body req "os" ∧ in_body req "manufacturer"
     ∧ size (devices db) < 10
     ∧ is_Some (users db !! u)
     ∧ devices db !! oid = None)
  ∧ (status (post_devices srv db oid u req).1 = 200%Z →
     size (devices (post_devices srv db oid u req).2) = S (size (devices db))
     ∧ is_Some (devices (post_devices srv db oid u req).2 !! oid)
     ∧ ∀ k, k ≠ oid →
         devices (post_devices srv db oid u req).2 !! k = devices db !! k)
  ∧ (fields_valid req →
     ¬ (in_body req "model" ∧ in_body req "os" ∧ in_body req "manufacturer") →
     size (devices db) < 10 → is_Some (users db !! u) →
     post_devices srv db oid u req = (ServerError, db)).
Proof.
  split_and!.
  - split.
    + intros Hok.
      destruct (post_devices_cases srv db oid u req)
        as [(m & o & mf & _ & Hm & Ho & Hmf & _ & _ & _ & Hv & Hroom & Huser & Hfresh)
           |[_ Hfail]]; [|done].
      unfold in_body. rewrite Hm, Ho, Hmf. by split_and!.
    + intros (Hv & Hm & Ho & Hmf & Hroom & Huser & Hfresh).
      destruct (post_devices_accepts srv db oid u req)
        as (m & o & mf & _ & _ & _ & ->); done.
  - intros Hok.
    destruct (post_devices_cases srv db oid u req)
      as [(m & o & mf & Hrun & _ & _ & _ & _ & _ & _ & _ & _ & _ & Hfresh)
         |[_ Hfail]]; [|done].
    rewrite Hrun. simpl. split_and!.
    + by apply map_size_insert_None.
    + by rewrite lookup_insert_eq.
    + intros k Hk. by apply lookup_insert_ne.
  - intros Hv Hbody Hroom [user Huser]. unfold post_devices.
    assert (validationResult req = []) as -> by by apply validationResult_nil.
    cbn [negb isEmpty]. apply Nat.leb_gt in Hroom. rewrite Hroom, Huser.
    unfold in_body in Hbody.
    destruct (Req.body req !! "model"); [|done].
    destruct (Req.body req !! "os"); [|done].
    destruct (Req.body req !! "manufacturer"); [|done].
    exfalso. apply Hbody. by split_and!.
Qed.

Lemma register_served_iff_witness :
  status (post_devices sample_srv sample_db "d3" "alice"
            (body_only "Kindle" "Fire OS" "Amazon")).1 = 200%Z
  ∧ size (devices (post_devices sample_srv sample_db "d3" "alice"
                     (body_only "Kindle" "Fire OS" "Amazon")).2) = 3
  ∧ post_devices sample_srv sample_db "d3" "alice" query_request
    = (ServerError, sample_db).
Proof.
  destruct (register_served_iff sample_srv sample_db "d3" "alice"
              (body_only "Kindle" "Fire OS" "Amazon")) as ([_ Hserved] & Hstored & _).
  destruct (register_served_iff sample_srv sample_db "d3" "alice" query_request)
    as (_ & _ & Hquery).
  assert (status (post_devices sample_srv sample_db "d3" "alice"
                    (body_only "Kindle" "Fire OS" "Amazon")).1 = 200%Z) as Hok.
  { apply Hserved. split_and!.
    - apply validationResult_nil. reflexivity.
    - exists "Kindle". reflexivity.
    - exists "Fire OS". reflexivity.
    - exists "Amazon". reflexivity.
    - vm_compute. lia.
    - exists (User.mk "Alice"). vm_compute. reflexivity.
    - vm_compute. reflexivity. }
  split_and!.
  - exact Hok.
  - destruct (Hstored Hok) as (Hsize & _). rewrite Hsize. vm_compute. reflexivity.
  - apply Hquery.
    + apply validationResult_nil. reflexivity.
    + intros ([m Hm] & _). vm_compute in Hm. discriminate Hm.
    + vm_compute. lia.
    + exists (User.mk "Alice"). vm_compute. reflexivity.
Defined.
